(** * kernelmethods: validation utilities, KernelMatrix and KernelSet

    A shallow embedding of [kernelmethods/utils.py] and of the
    [KernelMatrix] / [KernelSet] classes its test-suite exercises.

    Python exceptions are values of an error monad, the interpreter's
    builtins and NumPy are interfaces (type classes) the embedded code is
    written against, and the objects that the classes mutate live in an
    explicit store that is threaded through every method call. *)

From Stdlib Require Import QArith.
From stdpp Require Import base numbers option list strings gmap pretty.

Local Open Scope Z_scope.

(* ===================================================================== *)
(** * Exceptions and the error monad *)
(* ===================================================================== *)

Module Exn.

(** The exception classes that the package raises.  [KMSetAdditionError]
    is the package's own class; [Foreign] stands for whatever an external
    library call may raise (its class name is carried along);
    [Dangling] is raised by the store when a reference is not allocated,
    which no Python state exhibits. *)
Inductive kind : Set :=
| ValueError
| TypeError
| IndexError
| KMSetAdditionError
| Foreign (cls : string)
| Dangling.

(** An exception: its class and its message template (the text handed to
    [str.format], placeholders left unfilled). *)
Record t : Set := Raise { cls : kind; template : string }.

Definition result (A : Type) : Type := (t + A)%type.

Definition ok {A} (a : A) : result A := inr a.
Definition raise {A} (k : kind) (msg : string) : result A := inl (Raise k msg).

Definition bind {A B} (m : result A) (f : A -> result B) : result B :=
  match m with
  | inl e => inl e
  | inr a => f a
  end.

(** [raises k r]: the call ended in an exception of class [k]. *)
Definition raises {A} (k : kind) (r : result A) : Prop :=
  match r with
  | inl e => cls e = k
  | inr _ => False
  end.

(** [try: ... except: raise k(msg)], with a bare [except]. *)
Definition try_except_all {A} (o : option A) (k : kind) (msg : string) : result A :=
  match o with
  | Some a => ok a
  | None => raise k msg
  end.

End Exn.

Import Exn.

Notation "'let!' x ':=' m 'in' k" := (Exn.bind m (fun x => k))
(at level 10, x pattern, m at level 100, k at level 200).

(* ===================================================================== *)
(** * The interpreter: the builtins that utils.py calls *)
(* ===================================================================== *)

(** [obj] is the type of Python objects.  Each field is one builtin (or
  standard-library) operation as the code under study uses it. *)
Class PyRuntime (obj : Type) : Type := {
  (** [x is None] *)
  is_None : obj -> bool;
  (** [isinstance(x, str)] *)
  isinstance_str : obj -> bool;
  (** [isinstance(x, collections.abc.Iterable)] *)
  isinstance_Iterable : obj -> bool;
  (** [isinstance(x, numbers.Integral)], with the integer when it holds *)
  as_Integral : obj -> option Z;
  (** [len(x)]; raises [TypeError] for objects without [__len__] *)
  py_len : obj -> result nat;
  (** [callable(x)] *)
  py_callable : obj -> bool;
  (** [inspect.signature(x).parameters], as the list of parameter names;
      raises for callables that expose no signature *)
  inspect_signature : obj -> result (list string);
  (** [hasattr(x, '__name__')]; the lookup behind it may run code of the
      object, and what that raises, other than [AttributeError], is raised *)
  py_hasattr_name : obj -> result bool;
  (** [x.__name__]; raises when the lookup does *)
  py_getattr_name : obj -> result obj;
  (** [str(x)]; raises when the object's [__str__] does *)
  py_str : obj -> result string;
  (** a string literal as an object *)
  str_obj : string -> obj
}.

(* ===================================================================== *)
(** * NumPy: arrays and the calls that utils.py makes *)
(* ===================================================================== *)

(** An n-dimensional array: its shape, its dtype and its elements in
  row-major (C) order. *)
Record ndarray (dtype elem : Type) : Type := NdArray {
  shape : list nat;
  dtype_of : dtype;
  data : list elem
}.

Arguments NdArray {dtype elem} _ _ _.
Arguments shape {dtype elem} _.
Arguments dtype_of {dtype elem} _.
Arguments data {dtype elem} _.

(** [src] is the type of the objects handed over as arrays, [dtype] are
  the dtypes arrays carry, [dtype_like] what may be passed as
  [ensure_dtype] (the abstract scalar class [np.number] is the default),
  [elem] the array elements. *)
Class NumPy (src : Type) : Type := {
  dtype : Type;
  dtype_like : Type;
  elem : Type;
  np_number : dtype_like;
  (** [isinstance(x, np.ndarray)], with the array when it holds *)
  as_ndarray : src -> option (ndarray dtype elem);
  (** [np.asarray(x)] *)
  np_asarray : src -> result (ndarray dtype elem);
  (** [np.issubdtype(t, arr.dtype)] *)
  np_issubdtype : dtype_like -> dtype -> bool;
  (** [np.dtype(t)], the dtype an [astype(t)] produces; [None] when the
      conversion raises *)
  np_dtype : dtype_like -> option dtype;
  (** the cast of one element for [astype(t)]; [None] when it raises *)
  cast_elem : dtype_like -> elem -> option elem
}.

Module Np.

Abbreviation array := (ndarray dtype elem).

Section WithNumPy.

Context {src : Type} {np : NumPy src}.

(** [a.ndim] and [a.size] *)
Definition ndim (a : array) : nat := length (shape a).
Definition size (a : array) : nat := foldr Nat.mul 1%nat (shape a).

(** [enumerate(l)], counting from [i] *)
Fixpoint enumerate_from {A} (i : nat) (l : list A) : list (nat * A) :=
  match l with
  | [] => []
  | x :: l' => (i, x) :: enumerate_from (S i) l'
  end.

Definition enumerate {A} (l : list A) : list (nat * A) := enumerate_from 0 l.

(** The shape with the axes listed in [axes] removed. *)
Definition drop_axes (axes : list nat) (shp : list nat) : list nat :=
  snd <$> List.filter (fun p => negb (bool_decide (fst p ∈ axes))) (enumerate shp).

(** [np.squeeze(a, axis=axes)] for a tuple of axes: every selected axis
    must exist and have length one; the elements keep their order. *)
Definition squeeze (a : array) (axes : list nat) : result array :=
  if forallb (fun ax => bool_decide (shape a !! ax = Some 1%nat)) axes then
    ok (NdArray (drop_axes axes (shape a)) (dtype_of a) (data a))
  else
    raise ValueError "cannot select an axis to squeeze out which has size not equal to one".

(** The array with the singleton axes after axis [lo] removed, said on
    the shape directly: the first [lo + 1] axes as they are, then the
    later axes whose length is not one. *)
Definition squeezed (lo : nat) (a : array) : array :=
  NdArray (take (S lo) (shape a) ++ filter (fun sz => sz <> 1%nat) (drop (S lo) (shape a)))
          (dtype_of a) (data a).

(** [a.astype(t)]: element by element, [None] when anything raises. *)
Definition astype (a : array) (t : dtype_like) : option array :=
  d ← np_dtype t;
  xs ← mapM (cast_elem t) (data a);
  Some (NdArray (shape a) d xs).

End WithNumPy.
End Np.

(* ===================================================================== *)
(** * kernelmethods/utils.py *)
(* ===================================================================== *)

Module Utils.
Section WithRuntime.

Context {obj : Type} {rt : PyRuntime obj} {src : Type} {np : NumPy src}.

Import Np.

(** [tuple(ax for ax, sz in enumerate(array.shape) if sz==1 and ax>lo)] *)
Definition axes_to_sqz (lo : nat) (shp : list nat) : list nat :=
  fst <$> List.filter (fun p => (snd p =? 1)%nat && (lo <? fst p)%nat) (enumerate shp).

(** [def ensure_ndarray_size(array, ensure_dtype=np.number, ensure_num_dim=1)] *)
Definition ensure_ndarray_size (array : Np.array) (ensure_dtype : dtype_like)
    (ensure_num_dim : nat) : result Np.array :=
  if negb (ndim array =? ensure_num_dim)%nat then
    raise ValueError "array must be {}-dimensional! It has {} dims with shape {} "
  else if negb (np_issubdtype ensure_dtype (dtype_of array)) then
    try_except_all (astype array ensure_dtype)
      ValueError "Unable to recast input dtype from {} to required {}!"
  else
    ok array.

(** [if not isinstance(array, np.ndarray): array = np.asarray(array)] *)
Definition to_ndarray (array : src) : result Np.array :=
  match as_ndarray array with
  | Some a => ok a
  | None => np_asarray array
  end.

(** [def ensure_ndarray_2D(array, ensure_dtype=np.number, ensure_num_cols=None)] *)
Definition ensure_ndarray_2D (array : src) (ensure_dtype : dtype_like)
    (ensure_num_cols : option Z) : result Np.array :=
  let! array := to_ndarray array in
  let axes := axes_to_sqz 1 (shape array) in
  let! array := squeeze array axes in
  let! array := ensure_ndarray_size array ensure_dtype 2 in
  match ensure_num_cols with
  | Some cols =>
      match shape array !! 1%nat with
      | Some c =>
          if negb (Z.of_nat c =? cols) then
            raise ValueError "The number of columns differ from expected {}"
          else ok array
      | None => raise IndexError "tuple index out of range"
      end
  | None => ok array
  end.

(** [def ensure_ndarray_1D(array, ensure_dtype=np.number)] *)
Definition ensure_ndarray_1D (array : src) (ensure_dtype : dtype_like) : result Np.array :=
  let! array := to_ndarray array in
  let axes := axes_to_sqz 0 (shape array) in
  let! array := squeeze array axes in
  ensure_ndarray_size array ensure_dtype 1.

(** [def check_input_arrays(x, y, ensure_dtype=np.number)] *)
Definition check_input_arrays (x y : src) (ensure_dtype : dtype_like)
    : result (Np.array * Np.array) :=
  let! x := ensure_ndarray_1D x ensure_dtype in
  let! y := ensure_ndarray_1D y ensure_dtype in
  if negb (size x =? size y)%nat then
    raise ValueError "x (n={}) and y (n={}) differ in size! They must be of same length"
  else
    ok (x, y).

(** [def check_callable(input_func, min_num_args=2)] *)
Definition default_min_num_args : Z := 2.

Definition check_callable (input_func : obj) (min_num_args : Z) : result obj :=
  if negb (py_callable input_func) then
    raise TypeError "Input function must be callable!"
  else
    let! func_signature := inspect_signature input_func in
    if Z.of_nat (length func_signature) <? min_num_args then
      raise TypeError "Input func must accept atleast {} inputs"
    else
      ok input_func.

(** [def get_callable_name(input_func, name=None)] *)
Definition get_callable_name (input_func name : obj) : result obj :=
  if is_None name then
    let! has_name := py_hasattr_name input_func in
    if has_name then
      py_getattr_name input_func
    else
      ok (str_obj EmptyString)
  else
    let! s := py_str name in
    ok (str_obj s).

(** [def is_iterable_but_not_str(input_obj, min_length=1)] *)
Definition default_min_length : Z := 1.

Definition is_iterable_but_not_str (input_obj : obj) (min_length : Z) : result bool :=
  if negb (negb (isinstance_str input_obj) && isinstance_Iterable input_obj) then
    ok false
  else
    let! n := py_len input_obj in
    if Z.of_nat n <? min_length then ok false else ok true.

End WithRuntime.
End Utils.

(* ===================================================================== *)
(** * kernelmethods/base.py: KernelMatrix and KernelSet *)
(* ===================================================================== *)

Module Base.
Section WithRuntime.

Context {obj : Type} {rt : PyRuntime obj} {src : Type} {np : NumPy src}.

(** The scalars a kernel function returns.  Nothing is assumed of them:
    no arithmetic, no symmetry of the kernel. *)
Context {scalar : Type}.

(** Modelled from the spec: base.py is not among the sources, so every
    definition of this module follows the spec's description of the two
    classes (and, where the spec is silent, the calls of
    tests/test_kernel_set.py).

    References to objects in the store. *)
Definition loc : Set := nat.

(** Modelled from the spec: the KernelMatrix class of kernelmethods/base.py,
    which is not among the sources.  The fields are those of the spec's data
    model: the kernel function, the attached dataset ([None] before any
    [attach_to]), the cache keyed by the canonical pair [(min i j, max i j)],
    the attribute mapping and the two transform flags. *)
Record KernelMatrix : Type := {
  kernel_func : list elem -> list elem -> scalar;
  dataset : option Np.array;
  cache : gmap (nat * nat) scalar;
  attributes : gmap string obj;
  normalized : bool;
  centered : bool
}.

(** Modelled from the spec: the KernelSet class of kernelmethods/base.py,
    which is not among the sources: the ordered members, held by reference,
    and the sample count they share ([None] while undetermined). *)
Record KernelSet : Type := {
  members : list loc;
  num_samples : option nat
}.

(** Modelled from the spec: the objects alive, by reference.  A
    KernelSet holds references to its members, so that two sets can share
    one KernelMatrix object. *)
Record store : Type := {
  kmats : gmap loc KernelMatrix;
  ksets : gmap loc KernelSet
}.

(** Methods: they read and update the store and may raise; the store an
    exception leaves behind is the second component. *)
Definition M (A : Type) : Type := store -> result A * store.

Definition ret {A} (a : A) : M A := fun s => (ok a, s).
Definition fail {A} (k : kind) (msg : string) : M A := fun s => (raise k msg, s).
Definition lift {A} (r : result A) : M A := fun s => (r, s).

Definition bindM {A B} (m : M A) (f : A -> M B) : M B :=
  fun s =>
    match m s with
    | (inl e, s') => (inl e, s')
    | (inr a, s') => f a s'
    end.

Notation "'do!' x ':=' m 'in' k" := (bindM m (fun x => k))
  (at level 10, x pattern, m at level 100, k at level 200).

Definition read_km (l : loc) : M KernelMatrix :=
  fun s =>
    match kmats s !! l with
    | Some km => (ok km, s)
    | None => (raise Dangling "no such KernelMatrix", s)
    end.

Definition write_km (l : loc) (km : KernelMatrix) : M unit :=
  fun s => (ok tt, {| kmats := <[l := km]> (kmats s); ksets := ksets s |}).

Definition read_ks (l : loc) : M KernelSet :=
  fun s =>
    match ksets s !! l with
    | Some ks => (ok ks, s)
    | None => (raise Dangling "no such KernelSet", s)
    end.

Definition write_ks (l : loc) (ks : KernelSet) : M unit :=
  fun s => (ok tt, {| kmats := kmats s; ksets := <[l := ks]> (ksets s) |}).

Definition alloc_km (km : KernelMatrix) : M loc :=
  fun s =>
    let l := fresh (dom (kmats s)) in
    (ok l, {| kmats := <[l := km]> (kmats s); ksets := ksets s |}).

Definition alloc_ks (ks : KernelSet) : M loc :=
  fun s =>
    let l := fresh (dom (ksets s)) in
    (ok l, {| kmats := kmats s; ksets := <[l := ks]> (ksets s) |}).

(** ** KernelMatrix *)

(** Modelled from the spec: [KernelMatrix(kernel_func)], unattached, with
    an empty cache, no attributes and both flags down. *)
Definition new_KernelMatrix (k : list elem -> list elem -> scalar) : M loc :=
  alloc_km {| kernel_func := k; dataset := None; cache := ∅;
              attributes := ∅; normalized := false; centered := false |}.

(** Modelled from the spec: [num_samples] of a KernelMatrix is the [n] of
    its attached [(n, d)] dataset, undetermined before attachment. *)
Definition km_num_samples (km : KernelMatrix) : option nat :=
  a ← dataset km; shape a !! 0%nat.

(** Modelled from the spec: [attach_to(dataset)] validates the dataset with
    [ensure_ndarray_2D] (2-D, numeric), refuses an empty one, then binds
    it, clears the cache and resets the transform flags.  The attributes
    are independent of the numeric state and stay. *)
Definition km_attach_to (self : loc) (sample : src) : M unit :=
  do! km := read_km self in
  do! arr := lift (Utils.ensure_ndarray_2D sample np_number None) in
  if (Np.size arr =? 0)%nat then
    fail ValueError "dataset must be non-empty"
  else
    write_km self {| kernel_func := kernel_func km; dataset := Some arr;
                     cache := ∅; attributes := attributes km;
                     normalized := false; centered := false |}.

(** Modelled from the spec: [dataset[i]], row [i] of the attached 2-D
    array. *)
Definition row (a : Np.array) (i : nat) : list elem :=
  let d := default 0%nat (shape a !! 1%nat) in
  take d (drop (i * d) (data a)).

(** Modelled from the spec: the canonical unordered key
    [(min(i, j), max(i, j))] of the pair [(i, j)]. *)
Definition canonical (i j : nat) : nat * nat := (Nat.min i j, Nat.max i j).

(** Modelled from the spec: the matrix with one more cache entry;
    nothing else changes. *)
Definition cached (km : KernelMatrix) (key : nat * nat) (v : scalar) : KernelMatrix :=
  {| kernel_func := kernel_func km; dataset := dataset km;
     cache := <[key := v]> (cache km);
     attributes := attributes km;
     normalized := normalized km; centered := centered km |}.

(** Modelled from the spec: [K[i, j]].  Indices outside
    [0 <= i, j < num_samples] raise the indexing error (an unattached
    matrix has no valid index).  The value is looked up under the
    canonical key; on a miss it is computed as
    [kernel_func(dataset[i], dataset[j])] and stored under that key. *)
Definition km_getitem (self : loc) (i j : Z) : M scalar :=
  do! km := read_km self in
  match dataset km, km_num_samples km with
  | Some arr, Some n =>
      if (0 <=? i) && (i <? Z.of_nat n) && (0 <=? j) && (j <? Z.of_nat n) then
        let key := canonical (Z.to_nat i) (Z.to_nat j) in
        match cache km !! key with
        | Some v => ret v
        | None =>
            let v := kernel_func km (row arr (Z.to_nat i)) (row arr (Z.to_nat j)) in
            do! _ := write_km self (cached km key v) in
            ret v
        end
      else
        fail IndexError "index out of range for KernelMatrix"
  | _, _ => fail IndexError "index out of range for KernelMatrix"
  end.

(** ** KernelSet *)

(** Modelled from the spec: [size] / [len]: the number of members. *)
Definition ks_size (self : loc) : M nat :=
  do! ks := read_ks self in
  ret (length (members ks)).

(** Modelled from the spec: [append(km)].  A set that is empty and has no
    declared [num_samples] takes the member's; otherwise the member's
    [num_samples] must equal the set's, or the dedicated set-addition
    error is raised and nothing is written.  (The test-suite builds its
    fixture from matrices attached to no dataset: an undetermined
    [num_samples] is compared like any other value.) *)
Definition ks_append (self : loc) (km : loc) : M unit :=
  do! ks := read_ks self in
  do! m := read_km km in
  match num_samples ks, members ks with
  | None, [] =>
      write_ks self {| members := [km]; num_samples := km_num_samples m |}
  | _, _ =>
      if bool_decide (km_num_samples m = num_samples ks) then
        write_ks self {| members := members ks ++ [km];
                         num_samples := num_samples ks |}
      else
        fail KMSetAdditionError "Dimensions of this kernel matrix are incompatible with the KernelSet"
  end.

(** Modelled from the spec: bulk construction, one [append] per member,
    stopping at the first that is refused. *)
Fixpoint ks_extend (self : loc) (km_list : list loc) : M unit :=
  match km_list with
  | [] => ret tt
  | km :: rest => do! _ := ks_append self km in ks_extend self rest
  end.

(** Modelled from the spec: [KernelSet(km_list, num_samples)]: a new set
    with the declared size (if any), every initial member appended in
    order under the rule of [append]. *)
Definition new_KernelSet (km_list : list loc) (declared : option nat) : M loc :=
  do! self := alloc_ks {| members := []; num_samples := declared |} in
  do! _ := ks_extend self km_list in
  ret self.

(** Modelled from the spec: the index rules of [__getitem__].  An index
    that is not an integer is a [ValueError] (the class test_get_item
    expects), an integer below 0 or not below the size an [IndexError]. *)
Definition check_index (sz : nat) (index : obj) : result nat :=
  match as_Integral index with
  | None => raise ValueError "Only integer indices are permitted"
  | Some z =>
      if (z <? 0) || (Z.of_nat sz <=? z) then
        raise IndexError "Index out of range for KernelSet"
      else ok (Z.to_nat z)
  end.

(** Modelled from the spec: [kset[index]]: the member at [index]. *)
Definition ks_getitem (self : loc) (index : obj) : M loc :=
  do! ks := read_ks self in
  do! i := lift (check_index (length (members ks)) index) in
  match members ks !! i with
  | Some km => ret km
  | None => fail IndexError "Index out of range for KernelSet"
  end.

(** Modelled from the spec: the indices of [take], each validated by the
    rules of [__getitem__], in order. *)
Fixpoint check_indices (sz : nat) (indices : list obj) : result (list nat) :=
  match indices with
  | [] => ok []
  | ix :: rest =>
      let! i := check_index sz ix in
      let! ixs := check_indices sz rest in
      ok (i :: ixs)
  end.

(** Modelled from the spec: [take(indices)]: every index is validated by
    the rules of [__getitem__]; the result is a new KernelSet object whose
    members are the references found at those indices, in the given
    order, with the sample count of the original.  Neither the original
    set nor any KernelMatrix is written. *)
Definition ks_take (self : loc) (indices : list obj) : M loc :=
  do! ks := read_ks self in
  do! ixs := lift (check_indices (length (members ks)) indices) in
  alloc_ks {| members := omap (fun i => members ks !! i) ixs;
              num_samples := num_samples ks |}.

End WithRuntime.

Notation "'do!' x ':=' m 'in' k" := (bindM m (fun x => k))
  (at level 10, x pattern, m at level 100, k at level 200).

End Base.

(* ===================================================================== *)
(** * A small interpreter and a small NumPy, to run the code on *)
(* ===================================================================== *)

Module Tiny.

(** Python objects: [None], integers, floats (given by their [repr]),
    ASCII strings, lists of integers, functions defined with [def] (name,
    parameter names, address as printed), built-in functions that
    expose no signature, such as [numpy.dot], and instances of a
    user-defined class, given by what their [__str__] does (returns a
    text or raises) and by what the lookup of [__name__] on them does
    (finds a text, finds nothing, or raises). *)
Inductive pyobj : Set :=
| PNone
| PInt (z : Z)
| PFloat (repr : string)
| PStr (s : string)
| PList (items : list Z)
| PFunction (name : string) (params : list string) (addr : string)
| PBuiltin (name : string)
| PObject (on_str : Exn.t + string) (on_name : Exn.t + option string).

Definition pyobj_str (o : pyobj) : result string :=
  match o with
  | PNone => ok "None"
  | PInt z => ok (pretty z)
  | PFloat r => ok r
  | PStr s => ok s
  | PList items => ok ("[" +:+ String.concat ", " (pretty <$> items) +:+ "]")
  | PFunction name _ addr => ok ("<function " +:+ name +:+ " at " +:+ addr +:+ ">")
  | PBuiltin name => ok ("<built-in function " +:+ name +:+ ">")
  | PObject on_str _ => on_str
  end.

#[global] Instance runtime : PyRuntime pyobj := {|
  is_None o := match o with PNone => true | _ => false end;
  isinstance_str o := match o with PStr _ => true | _ => false end;
  isinstance_Iterable o :=
    match o with PStr _ | PList _ => true | _ => false end;
  as_Integral o := match o with PInt z => Some z | _ => None end;
  py_len o :=
    match o with
    | PStr s => ok (String.length s)
    | PList items => ok (length items)
    | _ => raise TypeError "object has no len()"
    end;
  py_callable o :=
    match o with PFunction _ _ _ | PBuiltin _ => true | _ => false end;
  inspect_signature o :=
    match o with
    | PFunction _ params _ => ok params
    | PBuiltin _ => raise ValueError "no signature found for builtin"
    | _ => raise TypeError "object is not a callable object"
    end;
  py_hasattr_name o :=
    match o with
    | PFunction _ _ _ | PBuiltin _ => ok true
    | PObject _ (inl e) => inl e
    | PObject _ (inr (Some _)) => ok true
    | _ => ok false
    end;
  py_getattr_name o :=
    match o with
    | PFunction name _ _ | PBuiltin name => ok (PStr name)
    | PObject _ (inl e) => inl e
    | PObject _ (inr (Some name)) => ok (PStr name)
    | _ => raise (Foreign "AttributeError") "object has no attribute __name__"
    end;
  py_str := pyobj_str;
  str_obj := PStr
|}.

(** Two functions of the test-suite's kind. *)
Definition func_with_less_than_min_args : pyobj :=
  PFunction "func_with_less_than_min_args" [] "0x7f3a5c0d1e50".

Definition linear : pyobj := PFunction "linear" ["x"; "y"] "0x7f3a5c0d1f70".

(** Instances of two user-defined classes: one whose [__str__] raises a
    [RuntimeError], one on which every attribute lookup raises it. *)
Definition runtime_error : Exn.t := Raise (Foreign "RuntimeError") "raised by the object".

Definition bad_str : pyobj := PObject (inl runtime_error) (inr None).

Definition bad_name : pyobj := PObject (inr "<BadName object>") (inl runtime_error).

(** Arrays of numbers or of words.  Numbers are exact rationals (the
    rounding of floats is not modelled); a [Word] is a str element whose
    text spells no number, so that casting it to a numeric dtype raises.
    What is passed as [ensure_dtype] is [np.number], [np.float64] or
    [np.int64]; [np.number] converts to float64, as NumPy 1.x has it. *)
Inductive np_dtype_t : Set := Float64 | Int64 | Unicode.
Inductive np_like : Set := Number | NpFloat64 | NpInt64.
Inductive cell : Set := Num (q : Q) | Word (w : string).

(** What is handed over as an array: an ndarray, a list of rows, a flat
    list of numbers, a list of words. *)
Inductive arraylike : Type :=
| Arr (a : ndarray np_dtype_t cell)
| Rows (rows : list (list Q))
| Seq (xs : list Q)
| Words (ws : list string).

Definition rows_asarray (rows : list (list Q)) : result (ndarray np_dtype_t cell) :=
  match rows with
  | [] => ok (NdArray [0%nat] Float64 [])
  | r :: _ =>
      if forallb (fun r' => (length r' =? length r)%nat) rows then
        ok (NdArray [length rows; length r] Float64 (Num <$> concat rows))
      else
        raise ValueError "setting an array element with a sequence"
  end.

#[global] Instance numpy : NumPy arraylike := {|
  dtype := np_dtype_t;
  dtype_like := np_like;
  elem := cell;
  np_number := Number;
  as_ndarray x := match x with Arr a => Some a | _ => None end;
  np_asarray x :=
    match x with
    | Arr a => ok a
    | Rows rows => rows_asarray rows
    | Seq xs => ok (NdArray [length xs] Float64 (Num <$> xs))
    | Words ws => ok (NdArray [length ws] Unicode (Word <$> ws))
    end;
  np_issubdtype t d :=
    match t, d with
    | NpFloat64, Float64 | NpInt64, Int64 => true
    | _, _ => false
    end;
  np_dtype t :=
    match t with
    | Number | NpFloat64 => Some Float64
    | NpInt64 => Some Int64
    end;
  cast_elem t x :=
    match x, t with
    | Num q, NpInt64 => Some (Num (inject_Z (Z.quot (Qnum q) (Zpos (Qden q)))))
    | Num q, _ => Some (Num q)
    | Word _, _ => None
    end
|}.

(** Sample inputs: a dataset of two samples with three features, a
    column, a row, a flat vector, and a 2-D array of words. *)
Definition sample_data : arraylike :=
  Rows [[1%Q; 2%Q; 3%Q]; [4%Q; 5%Q; 6%Q]].

Definition sample_array : ndarray np_dtype_t cell :=
  NdArray [2%nat; 3%nat] Float64 (Num <$> [1%Q; 2%Q; 3%Q; 4%Q; 5%Q; 6%Q]).

Definition column : arraylike := Rows [[1%Q]; [2%Q]; [3%Q]].

Definition column_array : ndarray np_dtype_t cell :=
  NdArray [3%nat; 1%nat] Float64 (Num <$> [1%Q; 2%Q; 3%Q]).

Definition row_vector : arraylike := Rows [[1%Q; 2%Q; 3%Q]].

Definition row_array : ndarray np_dtype_t cell :=
  NdArray [1%nat; 3%nat] Float64 (Num <$> [1%Q; 2%Q; 3%Q]).

Definition flat : arraylike := Seq [1%Q; 2%Q; 3%Q].

Definition flat_array : ndarray np_dtype_t cell :=
  NdArray [3%nat] Float64 (Num <$> [1%Q; 2%Q; 3%Q]).

Definition shorter : arraylike := Seq [1%Q; 2%Q].

Definition shorter_array : ndarray np_dtype_t cell :=
  NdArray [2%nat] Float64 (Num <$> [1%Q; 2%Q]).

Definition words_array : ndarray np_dtype_t cell :=
  NdArray [1%nat; 2%nat] Unicode [Word "a"; Word "b"].

(** A kernel on rows of numbers, for the examples: the dot product. *)
Definition as_Q (c : cell) : Q := match c with Num q => q | Word _ => 0%Q end.

Definition dot (x y : list cell) : Q :=
  foldr Qplus 0%Q (zip_with (fun a b => Qmult (as_Q a) (as_Q b)) x y).

(** A kernel that is not symmetric in its arguments: it returns the
    first coordinate of its first argument. *)
Definition first_coord (x y : list cell) : Q := as_Q (default (Num 0%Q) (head x)).

(** The polynomial kernel of degree 2. *)
Definition poly2 (x y : list cell) : Q := Qpower (1 + dot x y)%Q 2.

Import Base.

Abbreviation store := (Base.store (obj := pyobj) (src := arraylike) (scalar := Q)).
Abbreviation KernelMatrix :=
  (Base.KernelMatrix (obj := pyobj) (src := arraylike) (scalar := Q)).

Abbreviation M := (Base.M (obj := pyobj) (src := arraylike) (scalar := Q)).

Definition empty_store : store := {| kmats := ∅; ksets := ∅ |}.

(** A KernelMatrix attached to [sample_data], its cache empty. *)
Definition attached (k : list cell -> list cell -> Q) : KernelMatrix :=
  {| kernel_func := k; dataset := Some sample_array; cache := ∅;
     attributes := ∅; normalized := false; centered := false |}.

(** The fixture of the test-suite: three kernel matrices over one dataset,
    gathered in a KernelSet.  (The third kernel stands where the suite has
    a Gaussian one; it is deliberately not symmetric.) *)
Definition fixture : M (loc * loc * loc * loc) :=
  do! lin := new_KernelMatrix dot in
  do! poly := new_KernelMatrix poly2 in
  do! asym := new_KernelMatrix first_coord in
  do! _ := km_attach_to lin sample_data in
  do! _ := km_attach_to poly sample_data in
  do! _ := km_attach_to asym sample_data in
  do! kset := new_KernelSet [lin; poly; asym] None in
  ret (lin, poly, asym, kset).

Definition fixture_store : store := snd (fixture empty_store).

(** [test_size_property_mismatch]: an empty set declared for one sample
    more than the dataset has, and a matrix attached to the dataset. *)
Definition mismatch : M (loc * loc) :=
  do! ks := new_KernelSet [] (Some 3%nat) in
  do! lin := new_KernelMatrix dot in
  do! _ := km_attach_to lin sample_data in
  ret (ks, lin).

Definition mismatch_store : store := snd (mismatch empty_store).

End Tiny.

(* ===================================================================== *)
(** * kernelmethods/utils.py: the names of operations on kernel matrices *)
(* ===================================================================== *)

Module Ops.

Section WithConfig.

(** [s.lower()]: the builtin lowers text by the Unicode case mappings
    (the Kelvin sign becomes [k], final sigma depends on its position);
    it is taken as it is, a function on texts. *)
Variable str_lower : string -> string.

(** [config.VALID_KERNEL_MATRIX_OPS]: the configuration module is not
    among the sources; the collection of valid names is a parameter. *)
Variable VALID_KERNEL_MATRIX_OPS : list string.

(** [def check_operation_kernel_matrix(operation)] *)
Definition check_operation_kernel_matrix (operation : string) : result string :=
  let opr := str_lower operation in
  if negb (bool_decide (opr ∈ VALID_KERNEL_MATRIX_OPS)) then
    raise ValueError ("Invalid kernel matrix operation - must be one of:"
                      +:+ String (Ascii.ascii_of_nat 10) "{}")
  else
    ok opr.

End WithConfig.

(** To run the code on ASCII names: what [lower()] does to ASCII text,
    where the capitals A to Z move to their small letters and every other
    character stays.  (On other text this is not [lower()], and no
    theorem uses it.) *)
Definition ascii_lower_char (c : Ascii.ascii) : Ascii.ascii :=
  let n := Ascii.nat_of_ascii c in
  if (65 <=? n)%nat && (n <=? 90)%nat then Ascii.ascii_of_nat (n + 32) else c.

Fixpoint ascii_lower (s : string) : string :=
  match s with
  | EmptyString => EmptyString
  | String c s' => String (ascii_lower_char c) (ascii_lower s')
  end.

(** A configuration to run the code on. *)
Definition sample_ops : list string := ["sum"; "product"; "average"].

End Ops.

(* ===================================================================== *)
(** * Properties of utils.py: callables, names, iterables *)
(* ===================================================================== *)

Module UtilsSpec.
Section WithRuntime.

Context {obj : Type} {rt : PyRuntime obj}.

Import Utils.

Lemma raises_raise {A} (k : kind) (msg : string) : raises (A := A) k (raise k msg).
Proof. reflexivity. Qed.

(** C6: [check_callable] ends in a [TypeError] for every input that is not
    callable and for every callable whose signature declares fewer than
    [min_num_args] parameters; for a callable whose signature declares at
    least [min_num_args] parameters it returns the input itself. *)
Theorem check_callable_spec (input_func : obj) (min_num_args : Z) :
  (py_callable input_func = false ->
     raises TypeError (check_callable input_func min_num_args)) /\
  (forall params : list string,
     py_callable input_func = true ->
     inspect_signature input_func = ok params ->
     (Z.of_nat (length params) < min_num_args ->
        raises TypeError (check_callable input_func min_num_args)) /\
     (min_num_args <= Z.of_nat (length params) ->
        check_callable input_func min_num_args = ok input_func)).
Proof.
  unfold check_callable. split.
  - intros ->. apply raises_raise.
  - intros params -> ->. cbn.
    destruct (Z.ltb_spec (Z.of_nat (length params)) min_num_args); split;
      first [ lia | intros _; reflexivity ].
Qed.

(** C10, as amended: [get_callable_name] raises no exception of its own.
    When [name] is not [None] it returns [str(name)], whatever
    [input_func] is, provided [str(name)] returns; when [name] is [None] it
    returns [input_func.__name__] if [hasattr(input_func, '__name__')]
    holds and the empty string if it does not.  An exception raised by
    [str(name)], by [hasattr] or by the attribute lookup reaches the
    caller unchanged, and these are the only exceptions it ends in. *)
Theorem get_callable_name_spec (input_func name : obj) :
  (is_None name = false ->
     (forall s, py_str name = ok s ->
        get_callable_name input_func name = ok (str_obj s)) /\
     (forall e, py_str name = inl e ->
        get_callable_name input_func name = inl e)) /\
  (is_None name = true ->
     (forall n, py_hasattr_name input_func = ok true ->
        py_getattr_name input_func = ok n ->
        get_callable_name input_func name = ok n) /\
     (py_hasattr_name input_func = ok false ->
        get_callable_name input_func name = ok (str_obj EmptyString)) /\
     (forall e, py_hasattr_name input_func = inl e ->
        get_callable_name input_func name = inl e) /\
     (forall e, py_hasattr_name input_func = ok true ->
        py_getattr_name input_func = inl e ->
        get_callable_name input_func name = inl e)) /\
  (forall e, get_callable_name input_func name = inl e ->
     (is_None name = false /\ py_str name = inl e) \/
     (is_None name = true /\ py_hasattr_name input_func = inl e) \/
     (is_None name = true /\ py_hasattr_name input_func = ok true /\
      py_getattr_name input_func = inl e)).
Proof.
  unfold get_callable_name. split; [| split].
  - intros ->. split.
    + intros s ->. reflexivity.
    + intros e ->. reflexivity.
  - intros ->. repeat split.
    + intros n -> ->. reflexivity.
    + intros ->. reflexivity.
    + intros e ->. reflexivity.
    + intros e -> ->. reflexivity.
  - intros e. destruct (is_None name).
    + destruct (py_hasattr_name input_func) as [e' | [|]]; cbn.
      * intros Heq. inversion Heq; subst. right. left. split; reflexivity.
      * intros Heq. right. right. repeat split. exact Heq.
      * discriminate.
    + destruct (py_str name) as [e' | s]; cbn; [| discriminate].
      intros Heq. inversion Heq; subst. left. split; reflexivity.
Qed.

(** C9: [is_iterable_but_not_str] returns [False] for every string,
    whatever its length, and for every sized iterable that is not a string
    and is shorter than [min_length]; it returns [True] for every sized
    iterable that is not a string and has at least [min_length] items. *)
Theorem is_iterable_but_not_str_spec (input_obj : obj) (min_length : Z) :
  (isinstance_str input_obj = true ->
     is_iterable_but_not_str input_obj min_length = ok false) /\
  (forall n : nat,
     isinstance_str input_obj = false ->
     isinstance_Iterable input_obj = true ->
     py_len input_obj = ok n ->
     (Z.of_nat n < min_length ->
        is_iterable_but_not_str input_obj min_length = ok false) /\
     (min_length <= Z.of_nat n ->
        is_iterable_but_not_str input_obj min_length = ok true)).
Proof.
  unfold is_iterable_but_not_str. split.
  - intros ->. reflexivity.
  - intros n -> -> ->. cbn.
    destruct (Z.ltb_spec (Z.of_nat n) min_length); split;
      first [ lia | intros _; reflexivity ].
Qed.

End WithRuntime.

Import Utils Tiny.

(** [check_callable] on a string, on a function of no argument and on a
    function of two, with the default [min_num_args]. *)
Lemma check_callable_spec_witness :
  raises TypeError (check_callable (PStr "kdjkj") default_min_num_args) /\
  raises TypeError (check_callable func_with_less_than_min_args default_min_num_args) /\
  check_callable linear default_min_num_args = ok linear.
Proof.
  split; [| split].
  - apply (proj1 (check_callable_spec (PStr "kdjkj") default_min_num_args)).
    reflexivity.
  - apply (proj2 (check_callable_spec func_with_less_than_min_args
                    default_min_num_args) []); [reflexivity | reflexivity |].
    vm_compute. reflexivity.
  - apply (proj2 (check_callable_spec linear default_min_num_args) ["x"; "y"]);
      [reflexivity | reflexivity |].
    vm_compute. discriminate.
Defined.

(** The calls of the test-suite: a name given, and no name with an
    object that has no [__name__]; and a call that ends in the exception
    of [str]. *)
Lemma get_callable_name_spec_witness :
  get_callable_name linear (PStr "test") = ok (PStr "test") /\
  get_callable_name linear PNone = ok (PStr "linear") /\
  get_callable_name (PStr "test_ensure_array_dim") PNone = ok (PStr EmptyString) /\
  get_callable_name linear bad_str = inl runtime_error.
Proof.
  split; [| split; [| split]].
  - destruct (get_callable_name_spec linear (PStr "test")) as (Hname & _ & _).
    apply (proj1 (Hname eq_refl) "test"). reflexivity.
  - destruct (get_callable_name_spec linear PNone) as (_ & Hnone & _).
    apply (proj1 (Hnone eq_refl)); reflexivity.
  - destruct (get_callable_name_spec (PStr "test_ensure_array_dim") PNone)
      as (_ & Hnone & _).
    apply (proj1 (proj2 (Hnone eq_refl))). reflexivity.
  - destruct (get_callable_name_spec linear bad_str) as (Hname & _ & _).
    apply (proj2 (Hname eq_refl)). reflexivity.
Defined.

(** [get_callable_name] does raise: with a [name] whose [__str__] raises,
    and with no name and an [input_func] on which [hasattr] raises, it
    returns nothing. *)
Lemma get_callable_name_raises :
  ~ (exists v, get_callable_name linear bad_str = ok v) /\
  ~ (exists v, get_callable_name bad_name PNone = ok v) /\
  raises (Foreign "RuntimeError") (get_callable_name linear bad_str) /\
  raises (Foreign "RuntimeError") (get_callable_name bad_name PNone).
Proof.
  split; [| split; [| split]].
  - intros [v Hv]. vm_compute in Hv. discriminate.
  - intros [v Hv]. vm_compute in Hv. discriminate.
  - reflexivity.
  - reflexivity.
Qed.

(** A string, a list shorter than the minimum, a list long enough. *)
Lemma is_iterable_but_not_str_spec_witness :
  is_iterable_but_not_str (PStr "weight") default_min_length = ok false /\
  is_iterable_but_not_str (PList [1; 2]) 3 = ok false /\
  is_iterable_but_not_str (PList [1; 2]) default_min_length = ok true.
Proof.
  split; [| split].
  - apply (proj1 (is_iterable_but_not_str_spec (PStr "weight") default_min_length)).
    reflexivity.
  - apply (proj2 (is_iterable_but_not_str_spec (PList [1; 2]) 3) 2%nat);
      [reflexivity | reflexivity | reflexivity |].
    vm_compute. reflexivity.
  - apply (proj2 (is_iterable_but_not_str_spec (PList [1; 2]) default_min_length)
             2%nat); [reflexivity | reflexivity | reflexivity |].
    vm_compute. discriminate.
Defined.

End UtilsSpec.

(* ===================================================================== *)
(** * Properties of utils.py: array validation *)
(* ===================================================================== *)

Module ArraySpec.
Section WithNumPy.

Context {src : Type} {np : NumPy src}.

Import Np Utils.

(** ** Enumeration and squeezing *)

Lemma enumerate_from_In {A} (l : list A) (k i : nat) (x : A) :
  In (i, x) (enumerate_from k l) <-> (k <= i)%nat /\ l !! (i - k)%nat = Some x.
Proof.
  revert k. induction l as [|y l IH]; intros k; cbn.
  - split; [tauto | intros [_ Hl]; discriminate].
  - rewrite IH. split.
    + intros [Heq | [Hle Hl]].
      * inversion Heq; subst. rewrite Nat.sub_diag. split; [lia | reflexivity].
      * split; [lia |]. replace (i - k)%nat with (S (i - S k)) by lia. exact Hl.
    + intros [Hle Hl]. destruct (decide (i = k)) as [-> | Hne].
      * left. rewrite Nat.sub_diag in Hl. cbn in Hl. congruence.
      * right. split; [lia |].
        replace (i - k)%nat with (S (i - S k)) in Hl by lia. exact Hl.
Qed.

Lemma enumerate_In {A} (l : list A) (i : nat) (x : A) :
  In (i, x) (enumerate l) <-> l !! i = Some x.
Proof.
  unfold enumerate. rewrite enumerate_from_In, Nat.sub_0_r.
  split; [tauto | split; [lia | assumption]].
Qed.

(** The axes selected for squeezing are the singleton axes after [lo]. *)
Lemma axes_to_sqz_spec (lo : nat) (shp : list nat) (ax : nat) :
  ax ∈ axes_to_sqz lo shp <-> shp !! ax = Some 1%nat /\ (lo < ax)%nat.
Proof.
  unfold axes_to_sqz. rewrite list_elem_of_fmap. split.
  - intros [[i sz] [-> Hin]]. apply list_elem_of_In, List.filter_In in Hin.
    destruct Hin as [Hin Htest]. apply enumerate_In in Hin. cbn in *.
    apply andb_prop in Htest as [Hsz Hlo].
    apply Nat.eqb_eq in Hsz. apply Nat.ltb_lt in Hlo. subst. auto.
  - intros [Hl Hlo]. exists (ax, 1%nat). split; [reflexivity |].
    apply list_elem_of_In, List.filter_In. split.
    + apply enumerate_In. exact Hl.
    + cbn [fst snd]. apply andb_true_intro.
      split; [reflexivity | apply Nat.ltb_lt; exact Hlo].
Qed.

(** So [np.squeeze] accepts them: none has a length other than one. *)
Lemma squeeze_axes_to_sqz (a : Np.array) (lo : nat) :
  squeeze a (axes_to_sqz lo (shape a)) =
  ok (NdArray (drop_axes (axes_to_sqz lo (shape a)) (shape a)) (dtype_of a) (data a)).
Proof.
  unfold squeeze.
  replace (forallb _ _) with true; [reflexivity |].
  symmetry. apply forallb_forall. intros ax Hax.
  apply list_elem_of_In, axes_to_sqz_spec in Hax as [Hl _].
  apply bool_decide_eq_true. exact Hl.
Qed.

Lemma keep_from (lo : nat) (l : list nat) (k : nat) :
  snd <$> List.filter (fun p => negb ((snd p =? 1)%nat && (lo <? fst p)%nat))
            (enumerate_from k l) =
  take (S lo - k) l ++ filter (fun sz => sz <> 1%nat) (drop (S lo - k) l).
Proof.
  revert k. induction l as [|x l IH]; intros k.
  - cbn. rewrite take_nil, drop_nil. reflexivity.
  - cbn [enumerate_from List.filter fst snd]. specialize (IH (S k)).
    destruct (Nat.ltb_spec lo k) as [Hlt | Hge].
    + replace (S lo - k)%nat with 0%nat in * by lia.
      replace (S lo - S k)%nat with 0%nat in * by lia.
      cbn [take drop app] in *. rewrite filter_cons.
      destruct (Nat.eqb_spec x 1) as [-> | Hx]; cbn [andb negb].
      * rewrite decide_False by (intros Hc; apply Hc; reflexivity). exact IH.
      * rewrite decide_True by exact Hx. cbn. f_equal. exact IH.
    + replace (S lo - k)%nat with (S (lo - k)) by lia.
      replace (S lo - S k)%nat with (lo - k)%nat in * by lia.
      rewrite andb_false_r. cbn. f_equal. exact IH.
Qed.

(** The shape after squeezing: the first [lo + 1] axes as they are, then
    the later axes that are not singletons. *)
Lemma drop_axes_to_sqz (lo : nat) (shp : list nat) :
  drop_axes (axes_to_sqz lo shp) shp =
  take (S lo) shp ++ filter (fun sz => sz <> 1%nat) (drop (S lo) shp).
Proof.
  unfold drop_axes.
  rewrite (List.filter_ext_in _
             (fun p => negb ((snd p =? 1)%nat && (lo <? fst p)%nat))).
  - unfold enumerate. rewrite keep_from, Nat.sub_0_r. reflexivity.
  - intros [i sz] Hin. apply enumerate_In in Hin. cbn. f_equal.
    destruct (bool_decide_reflect (i ∈ axes_to_sqz lo shp)) as [Hax | Hax];
      rewrite axes_to_sqz_spec in Hax.
    + destruct Hax as [Hl Hlo]. rewrite Hin in Hl. inversion Hl; subst.
      symmetry. apply andb_true_intro. split; [reflexivity | apply Nat.ltb_lt; exact Hlo].
    + symmetry. apply andb_false_iff.
      destruct (Nat.eqb_spec sz 1) as [-> | Hsz]; [right | left; reflexivity].
      apply Nat.ltb_ge. destruct (Nat.ltb_spec lo i); [exfalso; auto | lia].
Qed.

Lemma squeeze_squeezed (a : Np.array) (lo : nat) :
  squeeze a (axes_to_sqz lo (shape a)) = ok (squeezed lo a).
Proof. rewrite squeeze_axes_to_sqz, drop_axes_to_sqz. reflexivity. Qed.

(** ** Casting *)

Lemma astype_Some (a a' : Np.array) (t : dtype_like) :
  astype a t = Some a' ->
  shape a' = shape a /\ np_dtype t = Some (dtype_of a') /\
  mapM (cast_elem t) (data a) = Some (data a').
Proof.
  unfold astype. intros Ha.
  destruct (np_dtype t) as [d|]; [| discriminate]. cbn in Ha.
  destruct (mapM (cast_elem t) (data a)) as [xs|]; [| discriminate]. cbn in Ha.
  inversion Ha; subst. cbn. auto.
Qed.

(** Whether a cast goes through depends on the elements only. *)
Lemma astype_squeezed (a : Np.array) (lo : nat) (t : dtype_like) :
  astype (squeezed lo a) t =
  (fun a' => NdArray (shape (squeezed lo a)) (dtype_of a') (data a')) <$> astype a t.
Proof.
  unfold astype. cbn.
  destruct (np_dtype t) as [d|]; [| reflexivity]. cbn.
  destruct (mapM (cast_elem t) (data a)) as [xs|]; reflexivity.
Qed.

(** ** [ensure_ndarray_size] *)

Lemma ensure_ndarray_size_bad_dim (a : Np.array) (t : dtype_like) (k : nat) :
  ndim a <> k -> raises ValueError (ensure_ndarray_size a t k).
Proof.
  intros Hne. unfold ensure_ndarray_size.
  destruct (Nat.eqb_spec (ndim a) k); [contradiction | reflexivity].
Qed.

Lemma ensure_ndarray_size_kept (a : Np.array) (t : dtype_like) (k : nat) :
  ndim a = k -> np_issubdtype t (dtype_of a) = true ->
  ensure_ndarray_size a t k = ok a.
Proof.
  intros Hk Hsub. unfold ensure_ndarray_size.
  rewrite Hsub. destruct (Nat.eqb_spec (ndim a) k); [reflexivity | contradiction].
Qed.

Lemma ensure_ndarray_size_cast (a : Np.array) (t : dtype_like) (k : nat) :
  ndim a = k -> np_issubdtype t (dtype_of a) = false ->
  ensure_ndarray_size a t k =
  try_except_all (astype a t) ValueError
    "Unable to recast input dtype from {} to required {}!".
Proof.
  intros Hk Hsub. unfold ensure_ndarray_size.
  rewrite Hsub. destruct (Nat.eqb_spec (ndim a) k); [reflexivity | contradiction].
Qed.

(** Whatever [ensure_ndarray_size] returns has the shape it was given, and
    it raises nothing but [ValueError]. *)
Lemma ensure_ndarray_size_result (a : Np.array) (t : dtype_like) (k : nat) :
  match ensure_ndarray_size a t k with
  | inl e => cls e = ValueError
  | inr a' => shape a' = shape a /\ ndim a = k
  end.
Proof.
  unfold ensure_ndarray_size.
  destruct (Nat.eqb_spec (ndim a) k) as [Hk | Hk]; cbn; [| reflexivity].
  destruct (np_issubdtype t (dtype_of a)); cbn; [auto |].
  destruct (astype a t) as [a'|] eqn:Hcast; cbn; [| reflexivity].
  apply astype_Some in Hcast as [Hshape _]. auto.
Qed.

Lemma squeezed_id (a : Np.array) (lo : nat) :
  (length (shape a) <= S lo)%nat -> squeezed lo a = a.
Proof.
  intros Hlen. unfold squeezed.
  rewrite take_ge, drop_ge by lia. rewrite app_nil_r. destruct a; reflexivity.
Qed.

(** ** [ensure_ndarray_2D] *)

Lemma ensure_ndarray_2D_unfold (x : src) (t : dtype_like) (cols : option Z)
    (a : Np.array) :
  to_ndarray x = ok a ->
  ensure_ndarray_2D x t cols =
  let! array := ensure_ndarray_size (squeezed 1 a) t 2 in
  match cols with
  | Some c =>
      match shape array !! 1%nat with
      | Some d =>
          if negb (Z.of_nat d =? c)
          then raise ValueError "The number of columns differ from expected {}"
          else ok array
      | None => raise IndexError "tuple index out of range"
      end
  | None => ok array
  end.
Proof.
  intros Hto. unfold ensure_ndarray_2D. rewrite Hto. cbn [Exn.bind ok].
  rewrite squeeze_squeezed. reflexivity.
Qed.

(** C7: let [a] be the array form of the input.  [ensure_ndarray_2D] ends
    in a [ValueError] when [a], its singleton axes beyond the second
    squeezed out, is not 2-dimensional; when its column count differs from
    the requested [ensure_num_cols]; and when its elements have to be cast
    to the required dtype and the cast raises.  For an input of shape
    [(n, d)] that passes these checks it returns an array of shape [(n, d)]:
    the input's array form itself when no cast is needed, its cast to the
    required dtype otherwise. *)
Theorem ensure_ndarray_2D_spec (x : src) (t : dtype_like) (cols : option Z)
    (a : Np.array) :
  to_ndarray x = ok a ->
  (ndim (squeezed 1 a) <> 2%nat ->
     raises ValueError (ensure_ndarray_2D x t cols)) /\
  (forall (c : Z) (d : nat),
     cols = Some c -> shape (squeezed 1 a) !! 1%nat = Some d -> Z.of_nat d <> c ->
     raises ValueError (ensure_ndarray_2D x t cols)) /\
  (np_issubdtype t (dtype_of a) = false -> astype a t = None ->
     raises ValueError (ensure_ndarray_2D x t cols)) /\
  (forall n d : nat,
     shape a = [n; d] ->
     cols = None \/ cols = Some (Z.of_nat d) ->
     np_issubdtype t (dtype_of a) = true \/ is_Some (astype a t) ->
     exists r : Np.array,
       ensure_ndarray_2D x t cols = ok r /\
       shape r = [n; d] /\
       (np_issubdtype t (dtype_of a) = true -> r = a) /\
       (np_issubdtype t (dtype_of a) = false ->
          astype a t = Some r /\ np_dtype t = Some (dtype_of r))).
Proof.
  intros Hto. rewrite (ensure_ndarray_2D_unfold x t cols a Hto).
  pose proof (ensure_ndarray_size_result (squeezed 1 a) t 2) as Hres.
  repeat split.
  - intros Hdim.
    pose proof (ensure_ndarray_size_bad_dim (squeezed 1 a) t 2 Hdim) as Hbad.
    destruct (ensure_ndarray_size (squeezed 1 a) t 2); [exact Hbad | contradiction].
  - intros c d -> Hd Hne.
    destruct (ensure_ndarray_size (squeezed 1 a) t 2) as [e | a']; [exact Hres |].
    destruct Hres as [Hshape _]. cbn [Exn.bind]. rewrite Hshape, Hd.
    destruct (Z.eqb_spec (Z.of_nat d) c); [contradiction | reflexivity].
  - intros Hsub Hcast.
    destruct (Nat.eq_dec (ndim (squeezed 1 a)) 2%nat) as [Hdim | Hdim].
    + rewrite (ensure_ndarray_size_cast _ _ _ Hdim Hsub), astype_squeezed, Hcast.
      reflexivity.
    + pose proof (ensure_ndarray_size_bad_dim (squeezed 1 a) t 2 Hdim) as Hbad.
      destruct (ensure_ndarray_size (squeezed 1 a) t 2); [exact Hbad | contradiction].
  - intros n d Hshape Hcols Hnum.
    assert (Hid : squeezed 1 a = a) by (apply squeezed_id; rewrite Hshape; cbn; lia).
    rewrite Hid in *. clear Hres.
    assert (Hdim : ndim a = 2%nat) by (unfold ndim; rewrite Hshape; reflexivity).
    assert (Hcheck : forall r : Np.array, shape r = [n; d] ->
              match cols with
              | Some c =>
                  match shape r !! 1%nat with
                  | Some d' =>
                      if negb (Z.of_nat d' =? c)
                      then raise ValueError "The number of columns differ from expected {}"
                      else ok r
                  | None => raise IndexError "tuple index out of range"
                  end
              | None => ok r
              end = ok r).
    { intros r Hr. destruct Hcols as [-> | ->]; [reflexivity |].
      rewrite Hr. cbn. rewrite Z.eqb_refl. reflexivity. }
    destruct (np_issubdtype t (dtype_of a)) eqn:Hsub.
    + exists a. rewrite (ensure_ndarray_size_kept _ _ _ Hdim Hsub). cbn [Exn.bind ok].
      rewrite (Hcheck a Hshape). repeat split; [exact Hshape | discriminate | discriminate].
    + destruct Hnum as [Hc | [r Hr]]; [discriminate |].
      exists r. rewrite (ensure_ndarray_size_cast _ _ _ Hdim Hsub), Hr.
      cbn [try_except_all Exn.bind ok].
      apply astype_Some in Hr as Hr'. destruct Hr' as (Hrs & Hrd & _).
      rewrite Hcheck by congruence.
      repeat split; [congruence | discriminate | exact Hrd].
Qed.

(** ** [ensure_ndarray_1D] *)

Lemma ensure_ndarray_1D_unfold (x : src) (t : dtype_like) (a : Np.array) :
  to_ndarray x = ok a ->
  ensure_ndarray_1D x t = ensure_ndarray_size (squeezed 0 a) t 1.
Proof.
  intros Hto. unfold ensure_ndarray_1D. rewrite Hto. cbn [Exn.bind ok].
  rewrite squeeze_squeezed. reflexivity.
Qed.

Lemma squeezed_column (a : Np.array) (n : nat) :
  shape a = [n; 1%nat] \/ shape a = [n; 1%nat; 1%nat] ->
  squeezed 0 a = NdArray [n] (dtype_of a) (data a).
Proof. unfold squeezed. intros [-> | ->]; reflexivity. Qed.

Lemma squeezed_row (a : Np.array) (n : nat) :
  shape a = [1%nat; n] -> n <> 1%nat -> shape (squeezed 0 a) = [1%nat; n].
Proof.
  unfold squeezed. intros -> Hn. cbn [shape take drop app].
  rewrite filter_cons, decide_True by exact Hn. reflexivity.
Qed.

(** C8: let [a] be the array form of the input.  When [a] is a column of
    shape [(n, 1)] or [(n, 1, 1)], [ensure_ndarray_1D] returns the 1-D array
    of shape [(n,)] with the elements of [a] in their order: the very
    elements when no cast is needed, and their casts to the required dtype,
    one by one in the same order, when the cast goes through.  When [a] is
    a row of shape [(1, n)] with [n > 1], it ends in a [ValueError]. *)
Theorem ensure_ndarray_1D_column_row (x : src) (t : dtype_like) (a : Np.array) :
  to_ndarray x = ok a ->
  (forall n : nat,
     shape a = [n; 1%nat] \/ shape a = [n; 1%nat; 1%nat] ->
     (np_issubdtype t (dtype_of a) = true ->
        ensure_ndarray_1D x t = ok (NdArray [n] (dtype_of a) (data a))) /\
     (forall (d : dtype) (xs : list elem),
        np_issubdtype t (dtype_of a) = false ->
        np_dtype t = Some d ->
        Forall2 (fun e e' => cast_elem t e = Some e') (data a) xs ->
        ensure_ndarray_1D x t = ok (NdArray [n] d xs))) /\
  (forall n : nat,
     shape a = [1%nat; n] -> (1 < n)%nat ->
     raises ValueError (ensure_ndarray_1D x t)).
Proof.
  intros Hto. rewrite (ensure_ndarray_1D_unfold x t a Hto). split.
  - intros n Hshape. rewrite (squeezed_column a n Hshape). split.
    + intros Hsub. apply ensure_ndarray_size_kept; [reflexivity | exact Hsub].
    + intros d xs Hsub Hd Hxs. apply mapM_Some in Hxs.
      rewrite ensure_ndarray_size_cast; [| reflexivity | exact Hsub].
      unfold astype. cbn [data shape]. rewrite Hd. cbn. rewrite Hxs. reflexivity.
  - intros n Hshape Hn. apply ensure_ndarray_size_bad_dim.
    unfold ndim. rewrite (squeezed_row a n Hshape) by lia. cbn. lia.
Qed.

(** What [ensure_ndarray_1D] returns is 1-dimensional. *)
Lemma ensure_ndarray_1D_ndim (x : src) (t : dtype_like) (r : Np.array) :
  ensure_ndarray_1D x t = ok r -> ndim r = 1%nat.
Proof.
  unfold ensure_ndarray_1D. destruct (to_ndarray x) as [e | a]; [discriminate |].
  cbn [Exn.bind]. rewrite squeeze_squeezed. cbn [Exn.bind ok].
  pose proof (ensure_ndarray_size_result (squeezed 0 a) t 1) as Hres.
  intros Heq. rewrite Heq in Hres. destruct Hres as [Hshape Hdim].
  unfold ndim in *. congruence.
Qed.

(** ** [check_input_arrays] *)

(** C5: when the two inputs coerce to the 1-D arrays [x'] and [y'],
    [check_input_arrays] ends in a [ValueError] if their sizes differ and
    returns the pair [(x', y')] if their sizes are equal. *)
Theorem check_input_arrays_spec (x y : src) (t : dtype_like) (x' y' : Np.array) :
  ensure_ndarray_1D x t = ok x' ->
  ensure_ndarray_1D y t = ok y' ->
  ndim x' = 1%nat /\ ndim y' = 1%nat /\
  (size x' <> size y' -> raises ValueError (check_input_arrays x y t)) /\
  (size x' = size y' -> check_input_arrays x y t = ok (x', y')).
Proof.
  intros Hx Hy. unfold check_input_arrays. rewrite Hx, Hy. cbn [Exn.bind ok].
  split; [exact (ensure_ndarray_1D_ndim x t x' Hx) |].
  split; [exact (ensure_ndarray_1D_ndim y t y' Hy) |].
  destruct (Nat.eqb_spec (size x') (size y')); split;
    first [ contradiction | reflexivity | intros _; reflexivity ].
Qed.

End WithNumPy.
End ArraySpec.

(* ===================================================================== *)
(** * Properties of KernelSet and KernelMatrix *)
(* ===================================================================== *)

Module BaseSpec.
Section WithRuntime.

Context {obj : Type} {rt : PyRuntime obj} {src : Type} {np : NumPy src}.
Context {scalar : Type}.

Import Base.

Abbreviation store := (Base.store (obj := obj) (src := src) (scalar := scalar)).
Abbreviation KernelMatrix := (Base.KernelMatrix (obj := obj) (src := src) (scalar := scalar)).

(** ** Reading the store *)

Lemma read_ks_Some (s : store) (l : loc) (ks : KernelSet) :
  ksets s !! l = Some ks -> read_ks l s = (inr ks, s).
Proof. intros Hl. unfold read_ks. rewrite Hl. reflexivity. Qed.

Lemma read_km_Some (s : store) (l : loc) (km : KernelMatrix) :
  kmats s !! l = Some km -> read_km l s = (inr km, s).
Proof. intros Hl. unfold read_km. rewrite Hl. reflexivity. Qed.

Lemma ks_size_Some (s : store) (l : loc) (ks : KernelSet) :
  ksets s !! l = Some ks -> ks_size l s = (ok (length (members ks)), s).
Proof. intros Hl. unfold ks_size, bindM. rewrite (read_ks_Some s l ks Hl). reflexivity. Qed.

(** ** [append] *)

(** C1: when the set's [num_samples] is established as [N] and the
    KernelMatrix has [num_samples = M] with [M <> N], [append] raises
    [KMSetAdditionError], a class other than [ValueError], and leaves the
    store as it was: the set has the members it had, and [size] answers
    the same count after the call as before. *)
Theorem ks_append_size_mismatch (s : store) (self km : loc) (ks : KernelSet)
    (m : KernelMatrix) (N M : nat) :
  ksets s !! self = Some ks ->
  kmats s !! km = Some m ->
  num_samples ks = Some N ->
  km_num_samples m = Some M ->
  M <> N ->
  exists (e : Exn.t) (s' : store),
    ks_append self km s = (inl e, s') /\
    cls e = KMSetAdditionError /\
    cls e <> ValueError /\
    s' = s /\
    ksets s' !! self = Some ks /\
    ks_size self s' = ks_size self s /\
    ks_size self s = (ok (length (members ks)), s).
Proof.
  intros Hks Hkm HN HM Hne.
  exists (Raise KMSetAdditionError
            "Dimensions of this kernel matrix are incompatible with the KernelSet"), s.
  split.
  - unfold ks_append, bindM.
    rewrite (read_ks_Some s self ks Hks), (read_km_Some s km m Hkm).
    cbn iota beta. rewrite HN, HM.
    rewrite bool_decide_eq_false_2 by congruence. reflexivity.
  - repeat split; [discriminate | exact Hks | exact (ks_size_Some s self ks Hks)].
Qed.

(** ** [__getitem__] *)

(** C3: on a KernelSet of size [S], [__getitem__] with an integer index
    below [0] or not below [S] raises [IndexError], and with an index that
    is not an integer it raises [ValueError]: two different classes.  The
    store is left as it was. *)
Theorem ks_getitem_errors (s : store) (self : loc) (ks : KernelSet) (index : obj) :
  ksets s !! self = Some ks ->
  (forall z : Z,
     as_Integral index = Some z ->
     z < 0 \/ Z.of_nat (length (members ks)) <= z ->
     exists e, ks_getitem self index s = (inl e, s) /\ cls e = IndexError) /\
  (as_Integral index = None ->
     exists e, ks_getitem self index s = (inl e, s) /\
               cls e = ValueError /\ cls e <> IndexError).
Proof.
  intros Hks. unfold ks_getitem, bindM, lift, check_index.
  rewrite (read_ks_Some s self ks Hks). cbn iota beta. split.
  - intros z -> Hz.
    replace ((z <? 0) || (Z.of_nat (length (members ks)) <=? z)) with true.
    + eexists. split; reflexivity.
    + symmetry. apply orb_true_iff. destruct Hz; [left | right]; lia.
  - intros ->. eexists. repeat split. discriminate.
Qed.

(** ** [take] *)

Lemma check_indices_ok (sz : nat) (indices : list obj) (ixs : list nat) :
  Forall2 (fun index i => as_Integral index = Some (Z.of_nat i) /\ (i < sz)%nat)
          indices ixs ->
  check_indices sz indices = ok ixs.
Proof.
  induction 1 as [| index i indices ixs [Hint Hlt] _ IH]; [reflexivity |].
  cbn [check_indices]. unfold check_index. rewrite Hint.
  replace ((Z.of_nat i <? 0) || (Z.of_nat sz <=? Z.of_nat i)) with false.
  - cbn [Exn.bind]. rewrite IH. cbn. rewrite Nat2Z.id. reflexivity.
  - symmetry. apply orb_false_iff. split; lia.
Qed.

Lemma omap_lookup_all {A} (l : list A) (ixs : list nat) :
  Forall (fun i => (i < length l)%nat) ixs ->
  Forall2 (fun i x => l !! i = Some x) ixs (omap (fun i => l !! i) ixs).
Proof.
  induction 1 as [| i ixs Hi _ IH]; [constructor |].
  cbn. destruct (lookup_lt_is_Some_2 l i Hi) as [x Hx]. rewrite Hx.
  constructor; assumption.
Qed.

(** C4: for indices that are all valid, [take] returns a new KernelSet
    object, other than the original, whose members are the references the
    original holds at those indices, in the order given (as many as there
    are indices).  The original set is bound to the same members as before,
    no other set is touched, and no KernelMatrix is written or created: the
    new set shares its members with the original. *)
Theorem ks_take_spec (s : store) (self : loc) (ks : KernelSet)
    (indices : list obj) (ixs : list nat) :
  ksets s !! self = Some ks ->
  Forall2 (fun index i => as_Integral index = Some (Z.of_nat i) /\
                          (i < length (members ks))%nat) indices ixs ->
  exists (new : loc) (taken : list loc) (s' : store),
    ks_take self indices s = (ok new, s') /\
    new <> self /\
    ksets s' !! new = Some {| members := taken; num_samples := num_samples ks |} /\
    Forall2 (fun i km => members ks !! i = Some km) ixs taken /\
    length taken = length indices /\
    ksets s' !! self = Some ks /\
    ks_size self s' = (ok (length (members ks)), s') /\
    (forall l, l <> new -> ksets s' !! l = ksets s !! l) /\
    kmats s' = kmats s.
Proof.
  intros Hks Hvalid.
  set (new := fresh (dom (ksets s))).
  set (taken := omap (fun i => members ks !! i) ixs).
  assert (Hnew : new <> self).
  { intros Heq. apply (is_fresh (dom (ksets s))). fold new. rewrite Heq.
    apply elem_of_dom. eauto. }
  assert (Htaken : Forall2 (fun i km => members ks !! i = Some km) ixs taken).
  { apply omap_lookup_all. clear -Hvalid.
    induction Hvalid as [| ? ? ? ? [_ Hlt] _ IH]; constructor; assumption. }
  exists new, taken,
    {| kmats := kmats s;
       ksets := <[new := {| members := taken; num_samples := num_samples ks |}]> (ksets s) |}.
  assert (Hself : (<[new := {| members := taken; num_samples := num_samples ks |}]>
                     (ksets s)) !! self = Some ks).
  { rewrite lookup_insert_ne by exact Hnew. exact Hks. }
  split; [| repeat split].
  - unfold ks_take, bindM, lift.
    rewrite (read_ks_Some s self ks Hks). cbn iota beta.
    rewrite (check_indices_ok _ _ _ Hvalid). reflexivity.
  - exact Hnew.
  - cbn. apply lookup_insert_eq.
  - exact Htaken.
  - rewrite <- (Forall2_length _ _ _ Htaken). symmetry.
    exact (Forall2_length _ _ _ Hvalid).
  - exact Hself.
  - apply ks_size_Some. exact Hself.
  - intros l Hl. cbn. apply lookup_insert_ne. congruence.
Qed.

(** ** Indexed access to a KernelMatrix *)

Lemma canonical_comm (i j : nat) : canonical i j = canonical j i.
Proof. unfold canonical. rewrite Nat.min_comm, Nat.max_comm. reflexivity. Qed.

Lemma km_getitem_valid (s : store) (self : loc) (km : KernelMatrix)
    (arr : Np.array) (n : nat) (i j : Z) :
  kmats s !! self = Some km ->
  dataset km = Some arr ->
  km_num_samples km = Some n ->
  0 <= i < Z.of_nat n -> 0 <= j < Z.of_nat n ->
  km_getitem self i j s =
  match cache km !! canonical (Z.to_nat i) (Z.to_nat j) with
  | Some v => (ok v, s)
  | None =>
      let v := kernel_func km (row arr (Z.to_nat i)) (row arr (Z.to_nat j)) in
      (ok v, {| kmats := <[self := cached km (canonical (Z.to_nat i) (Z.to_nat j)) v]>
                           (kmats s);
                ksets := ksets s |})
  end.
Proof.
  intros Hkm Harr Hn Hi Hj. unfold km_getitem, bindM.
  rewrite (read_km_Some s self km Hkm). cbn iota beta. rewrite Harr, Hn.
  replace ((0 <=? i) && (i <? Z.of_nat n) && (0 <=? j) && (j <? Z.of_nat n))
    with true by (symmetry; repeat (apply andb_true_intro; split); lia).
  destruct (cache km !! canonical (Z.to_nat i) (Z.to_nat j)); reflexivity.
Qed.

(** C2: on an attached KernelMatrix, whatever its cache holds, and for
    valid indices [i] and [j], the access [K[i, j]] followed by the access
    [K[j, i]] returns the same value twice, and the second access leaves
    the store as the first one left it: it is answered from the cache,
    under the canonical key the two pairs share.  Nothing is assumed of the
    kernel function: it need not be symmetric. *)
Theorem km_getitem_symmetric (s : store) (self : loc) (km : KernelMatrix)
    (n : nat) (i j : Z) :
  kmats s !! self = Some km ->
  km_num_samples km = Some n ->
  0 <= i < Z.of_nat n ->
  0 <= j < Z.of_nat n ->
  exists (v : scalar) (s1 : store),
    km_getitem self i j s = (ok v, s1) /\
    km_getitem self j i s1 = (ok v, s1) /\
    canonical (Z.to_nat i) (Z.to_nat j) = canonical (Z.to_nat j) (Z.to_nat i).
Proof.
  intros Hkm Hn Hi Hj.
  assert (Harr : exists arr, dataset km = Some arr).
  { unfold km_num_samples in Hn. destruct (dataset km) as [arr|]; [eauto | discriminate]. }
  destruct Harr as [arr Harr].
  pose proof (canonical_comm (Z.to_nat i) (Z.to_nat j)) as Hkey.
  rewrite (km_getitem_valid s self km arr n i j Hkm Harr Hn Hi Hj).
  destruct (cache km !! canonical (Z.to_nat i) (Z.to_nat j)) as [v|] eqn:Hc.
  - exists v, s. split; [reflexivity |]. split; [| exact Hkey].
    rewrite (km_getitem_valid s self km arr n j i Hkm Harr Hn Hj Hi).
    rewrite <- Hkey, Hc. reflexivity.
  - cbn zeta.
    set (v := kernel_func km (row arr (Z.to_nat i)) (row arr (Z.to_nat j))).
    set (km1 := cached km (canonical (Z.to_nat i) (Z.to_nat j)) v).
    exists v, {| kmats := <[self := km1]> (kmats s); ksets := ksets s |}.
    split; [reflexivity |]. split; [| exact Hkey].
    rewrite (km_getitem_valid _ self km1 arr n j i); try assumption.
    + rewrite <- Hkey. unfold km1, cached. cbn [cache].
      rewrite lookup_insert_eq. reflexivity.
    + cbn. apply lookup_insert_eq.
Qed.

End WithRuntime.
End BaseSpec.

(** ** The code run on sample inputs *)

Module ArrayExamples.

Import Np Utils Tiny ArraySpec.

(** A [(2, 3)] dataset passes with [ensure_num_cols=3] and fails with
    [ensure_num_cols=2]; a flat vector fails; an array of words fails. *)
Lemma ensure_ndarray_2D_spec_witness :
  (exists r, ensure_ndarray_2D sample_data np_number (Some 3) = ok r /\
             shape r = [2%nat; 3%nat]) /\
  raises ValueError (ensure_ndarray_2D sample_data np_number (Some 2)) /\
  raises ValueError (ensure_ndarray_2D flat np_number (Some 3)) /\
  raises ValueError (ensure_ndarray_2D (Arr words_array) np_number None).
Proof.
  split; [| split; [| split]].
  - destruct (ensure_ndarray_2D_spec (np := numpy) sample_data np_number (Some 3) sample_array
                eq_refl) as (_ & _ & _ & Hok).
    destruct (Hok 2%nat 3%nat eq_refl (or_intror eq_refl)
                (or_intror (mk_is_Some _ _ eq_refl))) as (r & Hr & Hs & _).
    exists r. split; assumption.
  - destruct (ensure_ndarray_2D_spec (np := numpy) sample_data np_number (Some 2) sample_array
                eq_refl) as (_ & Hcols & _).
    apply (Hcols 2 3%nat); [reflexivity | reflexivity | discriminate].
  - destruct (ensure_ndarray_2D_spec (np := numpy) flat np_number (Some 3) flat_array
                eq_refl) as (Hdim & _).
    apply Hdim. vm_compute. discriminate.
  - destruct (ensure_ndarray_2D_spec (np := numpy) (Arr words_array) np_number None words_array
                eq_refl) as (_ & _ & Hcast & _).
    apply Hcast; reflexivity.
Defined.

(** A column of three numbers becomes the vector of the three; a row of
    three numbers is refused. *)
Lemma ensure_ndarray_1D_column_row_witness :
  ensure_ndarray_1D column np_number = ok flat_array /\
  raises ValueError (ensure_ndarray_1D row_vector np_number).
Proof.
  split.
  - destruct (ensure_ndarray_1D_column_row (np := numpy) column np_number column_array eq_refl)
      as (Hcol & _).
    destruct (Hcol 3%nat (or_introl eq_refl)) as (_ & Hcast).
    apply (Hcast Float64 (Num <$> [1%Q; 2%Q; 3%Q])); [reflexivity | reflexivity |].
    repeat constructor.
  - destruct (ensure_ndarray_1D_column_row (np := numpy) row_vector np_number row_array eq_refl)
      as (_ & Hrow).
    apply (Hrow 3%nat); [reflexivity | lia].
Defined.

(** Vectors of three and two numbers differ in size; a vector of three and
    a column of three agree. *)
Lemma check_input_arrays_spec_witness :
  raises ValueError (check_input_arrays flat shorter np_number) /\
  check_input_arrays flat column np_number = ok (flat_array, flat_array).
Proof.
  split.
  - destruct (check_input_arrays_spec (np := numpy) flat shorter np_number flat_array
                shorter_array eq_refl eq_refl) as (_ & _ & Hne & _).
    apply Hne. vm_compute. discriminate.
  - destruct (check_input_arrays_spec (np := numpy) flat column np_number flat_array
                flat_array eq_refl eq_refl) as (_ & _ & _ & Heq).
    apply Heq. reflexivity.
Defined.

End ArrayExamples.

Module BaseExamples.

Import Base Tiny BaseSpec.

Lemma fixture_runs : fst (fixture empty_store) = ok (0, 1, 2, 0)%nat.
Proof. vm_compute. reflexivity. Qed.

Lemma fixture_kset :
  ksets fixture_store !! 0%nat =
  Some {| members := [0; 1; 2]%nat; num_samples := Some 2%nat |}.
Proof. vm_compute. reflexivity. Qed.

Lemma fixture_asym : kmats fixture_store !! 2%nat = Some (attached first_coord).
Proof. vm_compute. reflexivity. Qed.

Lemma mismatch_runs : fst (mismatch empty_store) = ok (0, 0)%nat.
Proof. vm_compute. reflexivity. Qed.

Lemma mismatch_kset :
  ksets mismatch_store !! 0%nat = Some {| members := []; num_samples := Some 3%nat |}.
Proof. vm_compute. reflexivity. Qed.

Lemma mismatch_lin : kmats mismatch_store !! 0%nat = Some (attached dot).
Proof. vm_compute. reflexivity. Qed.

(** [test_size_property_mismatch]: the append is refused and the set stays
    empty. *)
Lemma ks_append_size_mismatch_witness :
  exists e,
    ks_append 0%nat 0%nat mismatch_store = (inl e, mismatch_store) /\
    cls e = KMSetAdditionError /\
    ks_size 0%nat mismatch_store = (ok 0%nat, mismatch_store).
Proof.
  destruct (ks_append_size_mismatch mismatch_store 0%nat 0%nat _ _ 3%nat 2%nat
              mismatch_kset mismatch_lin eq_refl eq_refl)
    as (e & s' & Happ & Hcls & _ & -> & _ & _ & Hsize); [lia |].
  exists e. repeat split; assumption.
Defined.

(** The third kernel of the fixture is not symmetric. *)
Lemma first_coord_asymmetric :
  first_coord (row sample_array 0) (row sample_array 1) = 1%Q /\
  first_coord (row sample_array 1) (row sample_array 0) = 4%Q.
Proof. split; reflexivity. Qed.

(** [K[0, 1]] is computed and cached; [K[1, 0]] is then read from the
    cache, though the kernel would give 4 for it. *)
Lemma fixture_asym_accesses :
  exists s1,
    km_getitem 2%nat 0 1 fixture_store = (ok 1%Q, s1) /\
    km_getitem 2%nat 1 0 s1 = (ok 1%Q, s1).
Proof. eexists. split; vm_compute; reflexivity. Qed.

(** The asymmetric kernel gives [first_coord(row 0, row 1) = 1] and
    [first_coord(row 1, row 0) = 4]; the matrix answers [K[0,1]] and then
    [K[1,0]] with one value. *)
Lemma km_getitem_symmetric_witness :
  exists v s1,
    km_getitem 2%nat 0 1 fixture_store = (ok v, s1) /\
    km_getitem 2%nat 1 0 s1 = (ok v, s1).
Proof.
  destruct (km_getitem_symmetric fixture_store 2%nat _ 2%nat 0 1
              fixture_asym eq_refl) as (v & s1 & H01 & H10 & _); [lia | lia |].
  exists v, s1. split; assumption.
Defined.

(** [test_get_item]: [-1] and [size] are out of range; [1.0] and ['1'] are
    no integers. *)
Lemma ks_getitem_errors_witness :
  (exists e, ks_getitem 0%nat (PInt (-1)) fixture_store = (inl e, fixture_store) /\
             cls e = IndexError) /\
  (exists e, ks_getitem 0%nat (PInt 3) fixture_store = (inl e, fixture_store) /\
             cls e = IndexError) /\
  (exists e, ks_getitem 0%nat (PFloat "1.0") fixture_store = (inl e, fixture_store) /\
             cls e = ValueError) /\
  (exists e, ks_getitem 0%nat (PStr "1") fixture_store = (inl e, fixture_store) /\
             cls e = ValueError).
Proof.
  split; [| split; [| split]].
  - apply (proj1 (ks_getitem_errors (rt := runtime) fixture_store 0%nat _ (PInt (-1)) fixture_kset)
             (-1) eq_refl). left. lia.
  - apply (proj1 (ks_getitem_errors (rt := runtime) fixture_store 0%nat _ (PInt 3) fixture_kset)
             3 eq_refl). right. cbn. lia.
  - destruct (proj2 (ks_getitem_errors (rt := runtime) fixture_store 0%nat _ (PFloat "1.0")
                       fixture_kset) eq_refl) as (e & He & Hcls & _).
    exists e. split; assumption.
  - destruct (proj2 (ks_getitem_errors (rt := runtime) fixture_store 0%nat _ (PStr "1")
                       fixture_kset) eq_refl) as (e & He & Hcls & _).
    exists e. split; assumption.
Defined.

(** [test_take]: [take([0, 1])] on the set of three gives a new set of the
    first two members, and the original still has three. *)
Lemma ks_take_spec_witness :
  exists new s',
    ks_take 0%nat [PInt 0; PInt 1] fixture_store = (ok new, s') /\
    new <> 0%nat /\
    ksets s' !! new = Some {| members := [0; 1]%nat; num_samples := Some 2%nat |} /\
    ks_size 0%nat s' = (ok 3%nat, s').
Proof.
  destruct (ks_take_spec (rt := runtime) fixture_store 0%nat _ [PInt 0; PInt 1] [0; 1]%nat fixture_kset)
    as (new & taken & s' & Htake & Hnew & Hset & Hmem & _ & _ & Hsize & _).
  - repeat constructor.
  - exists new, s'. repeat split; try assumption.
    inversion Hmem as [| ? k0 ? l0 H0 Hmem']; subst.
    inversion Hmem' as [| ? k1 ? l1 H1 Hmem'']; subst.
    inversion Hmem''; subst. cbn in H0, H1.
    inversion H0; inversion H1; subst. exact Hset.
Defined.

End BaseExamples.

(* ===================================================================== *)
(** * More of utils.py: operation names, callables, iterables *)
(* ===================================================================== *)

Module UtilsMore.

Import Utils Ops.

Section WithConfig.

Variable str_lower : string -> string.
Variable VALID : list string.

Lemma check_operation_unfold (operation : string) :
  check_operation_kernel_matrix str_lower VALID operation =
  if bool_decide (str_lower operation ∈ VALID)
  then ok (str_lower operation)
  else raise ValueError ("Invalid kernel matrix operation - must be one of:"
                         +:+ String (Ascii.ascii_of_nat 10) "{}").
Proof.
  unfold check_operation_kernel_matrix.
  destruct (bool_decide (str_lower operation ∈ VALID)); reflexivity.
Qed.


(** X2: when [lower()] leaves every configured name as it is, every one
    of them is accepted and returned unchanged (the loop of
    test_valid_op); and a name is refused with a [ValueError] exactly when
    its lower-case form is not configured. *)
Theorem check_operation_accepts_valid :
  Forall (fun v => str_lower v = v) VALID ->
  (forall v, v ∈ VALID -> check_operation_kernel_matrix str_lower VALID v = ok v) /\
  (forall op, raises ValueError (check_operation_kernel_matrix str_lower VALID op) <->
              str_lower op ∉ VALID).
Proof.
  intros Hlower. split.
  - intros v Hv. rewrite check_operation_unfold.
    rewrite (proj1 (Forall_forall _ _) Hlower v Hv).
    rewrite bool_decide_eq_true_2 by exact Hv. reflexivity.
  - intros op. rewrite check_operation_unfold.
    destruct (bool_decide_reflect (str_lower op ∈ VALID)) as [Hin | Hout]; cbn.
    + split; [contradiction | intros Hc; exact (Hc Hin)].
    + split; [intros _; exact Hout | reflexivity].
Qed.

End WithConfig.

Section WithRuntime.

Context {obj : Type} {rt : PyRuntime obj}.

(** X3: [check_callable] returns exactly when its input is callable, has
    a signature, and the signature declares at least [min_num_args]
    parameters; what it returns is then the input itself. *)
Theorem check_callable_ok_iff (input_func g : obj) (min_num_args : Z) :
  check_callable input_func min_num_args = ok g <->
  g = input_func /\ py_callable input_func = true /\
  exists params, inspect_signature input_func = ok params /\
                 min_num_args <= Z.of_nat (length params).
Proof.
  unfold check_callable. destruct (py_callable input_func); cbn.
  - destruct (inspect_signature input_func) as [e | params]; cbn.
    + split; [discriminate | intros (_ & _ & ps & Hps & _); discriminate].
    + destruct (Z.ltb_spec (Z.of_nat (length params)) min_num_args) as [Hlt | Hge].
      * split; [discriminate |].
        intros (_ & _ & ps & Hps & Hle). inversion Hps; subst. lia.
      * split.
        -- intros Heq. inversion Heq; subst. eauto.
        -- intros (-> & _). reflexivity.
  - split; [discriminate | intros (_ & Hc & _); discriminate].
Qed.

(** X4: a function that passes [check_callable] for some minimum passes it
    for every smaller minimum. *)
Theorem check_callable_antitone (input_func : obj) (k k' : Z) :
  k' <= k ->
  check_callable input_func k = ok input_func ->
  check_callable input_func k' = ok input_func.
Proof.
  intros Hle Hk. unfold check_callable in *.
  destruct (py_callable input_func); cbn in *; [| discriminate].
  destruct (inspect_signature input_func) as [e | params]; cbn in *; [discriminate |].
  destruct (Z.ltb_spec (Z.of_nat (length params)) k); [discriminate |].
  destruct (Z.ltb_spec (Z.of_nat (length params)) k'); [lia | reflexivity].
Qed.

(** X5: every way [check_callable] fails: with a [TypeError] when the
    input is not callable or its signature declares too few parameters,
    and, for a callable whose signature cannot be read (a C or built-in
    function such as [numpy.dot], as the code's comment warns), with the
    exception that [inspect.signature] raised, whatever the minimum: this
    one need not be a [TypeError]. *)
Theorem check_callable_raises_iff (input_func : obj) (min_num_args : Z) (e : Exn.t) :
  check_callable input_func min_num_args = inl e <->
  (py_callable input_func = false /\
   e = Raise TypeError "Input function must be callable!") \/
  (py_callable input_func = true /\ inspect_signature input_func = inl e) \/
  (py_callable input_func = true /\
   exists params, inspect_signature input_func = ok params /\
                  Z.of_nat (length params) < min_num_args /\
                  e = Raise TypeError "Input func must accept atleast {} inputs").
Proof.
  unfold check_callable. destruct (py_callable input_func); cbn.
  - destruct (inspect_signature input_func) as [e' | params]; cbn.
    + split.
      * intros Heq. inversion Heq; subst. right. left. split; reflexivity.
      * intros [[Hc _] | [[_ Heq] | (_ & ps & Hps & _)]];
          [discriminate | inversion Heq; reflexivity | discriminate].
    + destruct (Z.ltb_spec (Z.of_nat (length params)) min_num_args) as [Hlt | Hge].
      * split.
        -- intros Heq. inversion Heq. right. right. split; [reflexivity |].
           exists params. repeat split. exact Hlt.
        -- intros [[Hc _] | [[_ Heq] | (_ & ps & Hps & _ & ->)]];
             [discriminate | discriminate | reflexivity].
      * split; [discriminate |].
        intros [[Hc _] | [[_ Heq] | (_ & ps & Hps & Hlt & _)]];
          [discriminate | discriminate |].
        inversion Hps; subst. lia.
  - split.
    + intros Heq. inversion Heq. left. split; reflexivity.
    + intros [[_ ->] | [[Hc _] | [Hc _]]]; [reflexivity | discriminate | discriminate].
Qed.

(** X6: [is_iterable_but_not_str] answers [True] exactly for the objects
    that are no strings, are iterable, have a length, and whose length is
    at least [min_length]. *)
Theorem is_iterable_true_iff (input_obj : obj) (min_length : Z) :
  is_iterable_but_not_str input_obj min_length = ok true <->
  isinstance_str input_obj = false /\ isinstance_Iterable input_obj = true /\
  exists n, py_len input_obj = ok n /\ min_length <= Z.of_nat n.
Proof.
  unfold is_iterable_but_not_str.
  destruct (isinstance_str input_obj), (isinstance_Iterable input_obj); cbn;
    try (split; [discriminate | intros (H1 & H2 & _); discriminate]).
  destruct (py_len input_obj) as [e | n]; cbn.
  - split; [discriminate | intros (_ & _ & n & Hn & _); discriminate].
  - destruct (Z.ltb_spec (Z.of_nat n) min_length) as [Hlt | Hge].
    + split; [discriminate |]. intros (_ & _ & n' & Hn & Hle). inversion Hn; subst. lia.
    + split; [intros _; eauto | reflexivity].
Qed.


End WithRuntime.
End UtilsMore.

(* ===================================================================== *)
(** * More of utils.py: what the array validators accept and return *)
(* ===================================================================== *)

Module ArrayMore.
Section WithNumPy.

Context {src : Type} {np : NumPy src}.

Import Np Utils ArraySpec.

(** ** Shapes *)

Lemma prod_app (l k : list nat) :
  foldr Nat.mul 1%nat (l ++ k) = (foldr Nat.mul 1%nat l * foldr Nat.mul 1%nat k)%nat.
Proof. induction l as [| x l IH]; cbn; [lia | rewrite IH; lia]. Qed.

Lemma prod_filter_ones (l : list nat) :
  foldr Nat.mul 1%nat (filter (fun sz => sz <> 1%nat) l) = foldr Nat.mul 1%nat l.
Proof.
  induction l as [| x l IH]; [reflexivity |].
  rewrite filter_cons. destruct (decide (x <> 1%nat)) as [Hx | Hx]; cbn.
  - rewrite IH. reflexivity.
  - assert (x = 1%nat) as -> by lia. rewrite IH. lia.
Qed.

Lemma filter_ones_nil (l : list nat) :
  filter (fun sz => sz <> 1%nat) l = [] -> l = replicate (length l) 1%nat.
Proof.
  induction l as [| x l IH]; [reflexivity |].
  rewrite filter_cons. destruct (decide (x <> 1%nat)) as [Hx | Hx]; [discriminate |].
  intros Hl. assert (x = 1%nat) as -> by lia. cbn. f_equal. exact (IH Hl).
Qed.

Lemma filter_ones_replicate (k : nat) :
  filter (fun sz => sz <> 1%nat) (replicate k 1%nat) = [].
Proof.
  induction k as [| k IH]; [reflexivity |].
  cbn [replicate]. rewrite filter_cons, decide_False by (intros Hc; apply Hc; reflexivity).
  exact IH.
Qed.

Lemma filter_ones_Forall (l : list nat) :
  Forall (fun sz => sz <> 1%nat) (filter (fun sz => sz <> 1%nat) l).
Proof.
  induction l as [| x l IH]; [constructor |].
  rewrite filter_cons. destruct (decide (x <> 1%nat)); [constructor |]; assumption.
Qed.

(** Squeezing removes factors 1 only: the number of elements stays. *)
Lemma size_squeezed (a : Np.array) (lo : nat) : size (squeezed lo a) = size a.
Proof.
  unfold size, squeezed. cbn [shape].
  rewrite prod_app, prod_filter_ones, <- prod_app, take_drop. reflexivity.
Qed.

(** The squeezed array has [lo + 1] axes exactly when the array has at
    least that many and every later one is a singleton. *)
Lemma squeezed_ndim_iff (a : Np.array) (lo : nat) :
  ndim (squeezed lo a) = S lo <->
  exists (pre : list nat) (k : nat),
    shape a = pre ++ replicate k 1%nat /\ length pre = S lo.
Proof.
  unfold ndim, squeezed. cbn [shape]. split.
  - intros Hlen. rewrite length_app in Hlen.
    destruct (Nat.le_gt_cases (S lo) (length (shape a))) as [Hge | Hlt].
    + exists (take (S lo) (shape a)), (length (drop (S lo) (shape a))).
      rewrite (length_take_le _ _ Hge) in Hlen.
      split; [| apply length_take_le; exact Hge].
      rewrite <- filter_ones_nil.
      * symmetry. apply take_drop.
      * apply length_zero_iff_nil. lia.
    + rewrite drop_ge, length_take_ge in Hlen by lia. cbn in Hlen. lia.
  - intros (pre & k & Hshape & Hpre). rewrite Hshape.
    rewrite take_app_length', drop_app_length' by (symmetry; exact Hpre).
    rewrite filter_ones_replicate, app_nil_r. exact Hpre.
Qed.

Lemma squeezed_shape_ones (a : Np.array) (lo : nat) (pre : list nat) (k : nat) :
  shape a = pre ++ replicate k 1%nat -> length pre = S lo ->
  shape (squeezed lo a) = pre.
Proof.
  intros Hshape Hpre. unfold squeezed. cbn [shape]. rewrite Hshape.
  rewrite take_app_length', drop_app_length' by (symmetry; exact Hpre).
  rewrite filter_ones_replicate, app_nil_r. reflexivity.
Qed.

(** ** [ensure_ndarray_size] *)

Lemma ensure_ndarray_size_ok_iff (a r : Np.array) (t : dtype_like) (k : nat) :
  ensure_ndarray_size a t k = ok r <->
  ndim a = k /\
  ((np_issubdtype t (dtype_of a) = true /\ r = a) \/
   (np_issubdtype t (dtype_of a) = false /\ astype a t = Some r)).
Proof.
  unfold ensure_ndarray_size.
  destruct (Nat.eqb_spec (ndim a) k) as [Hk | Hk]; cbn.
  - destruct (np_issubdtype t (dtype_of a)); cbn.
    + split.
      * intros Heq. inversion Heq; subst. split; [reflexivity | left; split; reflexivity].
      * intros (_ & [[_ ->] | [Hc _]]); [reflexivity | discriminate].
    + destruct (astype a t) as [a'|]; cbn.
      * split.
        -- intros Heq. inversion Heq; subst.
           split; [reflexivity | right; split; reflexivity].
        -- intros (_ & [[Hc _] | [_ Heq]]); [discriminate | inversion Heq; reflexivity].
      * split; [discriminate |].
        intros (_ & [[Hc _] | [_ Heq]]); discriminate.
  - split; [discriminate | intros [Hc _]; contradiction].
Qed.

Lemma castable_squeezed (a : Np.array) (lo : nat) (t : dtype_like) :
  (np_issubdtype t (dtype_of a) = true \/ is_Some (astype a t)) <->
  (exists r, (np_issubdtype t (dtype_of (squeezed lo a)) = true /\ r = squeezed lo a) \/
             (np_issubdtype t (dtype_of (squeezed lo a)) = false /\
              astype (squeezed lo a) t = Some r)).
Proof.
  rewrite astype_squeezed. cbn [dtype_of squeezed].
  destruct (np_issubdtype t (dtype_of a)).
  - split; [intros _; eexists; left; eauto | auto].
  - destruct (astype a t) as [a'|]; cbn.
    + split; [intros _; eexists; right; eauto | intros _; right; eauto].
    + split.
      * intros [Hc | [? Hc]]; discriminate.
      * intros (r & [[Hc _] | [_ Hc]]); discriminate.
Qed.

Lemma ensure_ndarray_size_data (a r : Np.array) (t : dtype_like) (k : nat) :
  ensure_ndarray_size a t k = ok r ->
  shape r = shape a /\ length (data r) = length (data a).
Proof.
  intros Hok. apply ensure_ndarray_size_ok_iff in Hok as (_ & [[_ ->] | [_ Hcast]]);
    [auto |].
  apply astype_Some in Hcast as (Hshape & _ & Hdata).
  split; [exact Hshape |]. symmetry. exact (length_mapM _ _ _ Hdata).
Qed.

(** ** Squeezing *)

(** X8: the call of [np.squeeze] in the two validators cannot fail: the
    axes handed to it are singletons.  What it returns has the elements
    and the dtype of the input, as many elements, the same first [lo + 1]
    axes, and no singleton axis after them. *)
Theorem squeeze_singletons (a : Np.array) (lo : nat) :
  exists r : Np.array,
    squeeze a (axes_to_sqz lo (shape a)) = ok r /\
    data r = data a /\ dtype_of r = dtype_of a /\ size r = size a /\
    take (S lo) (shape r) = take (S lo) (shape a) /\
    Forall (fun sz => sz <> 1%nat) (drop (S lo) (shape r)).
Proof.
  exists (squeezed lo a). split; [apply squeeze_squeezed |].
  split; [reflexivity |]. split; [reflexivity |]. split; [apply size_squeezed |].
  unfold squeezed. cbn [shape].
  destruct (Nat.le_gt_cases (S lo) (length (shape a))) as [Hge | Hlt].
  - rewrite take_app_length', drop_app_length'
      by (symmetry; apply length_take_le; exact Hge).
    split; [reflexivity | apply filter_ones_Forall].
  - rewrite (drop_ge (shape a)), (take_ge (shape a)) by lia.
    rewrite app_nil_r. rewrite take_ge, drop_ge by lia. split; constructor.
Qed.

(** ** [ensure_ndarray_1D] *)

(** X9: for an input with array form [a], [ensure_ndarray_1D] returns
    exactly when every axis of [a] after the first is a singleton (shape
    [(n, 1, ..., 1)], with at least one axis: a 0-d scalar is refused) and the
    elements need no cast or their cast goes through. *)
Theorem ensure_ndarray_1D_accepts_iff (x : src) (t : dtype_like) (a : Np.array) :
  to_ndarray x = ok a ->
  ((exists r, ensure_ndarray_1D x t = ok r) <->
   (exists n k : nat, shape a = n :: replicate k 1%nat) /\
   (np_issubdtype t (dtype_of a) = true \/ is_Some (astype a t))).
Proof.
  intros Hto. rewrite (ensure_ndarray_1D_unfold x t a Hto). split.
  - intros [r Hr]. apply ensure_ndarray_size_ok_iff in Hr as (Hdim & Hcast). split.
    + apply squeezed_ndim_iff in Hdim as (pre & k & Hshape & Hpre).
      destruct pre as [| n [| ? ?]]; try discriminate. exists n, k. exact Hshape.
    + apply (castable_squeezed a 0 t). exists r. exact Hcast.
  - intros [(n & k & Hshape) Hcast].
    apply (castable_squeezed a 0 t) in Hcast as [r Hr]. exists r.
    apply ensure_ndarray_size_ok_iff. split; [| exact Hr].
    apply squeezed_ndim_iff. exists [n], k. split; [exact Hshape | reflexivity].
Qed.

(** X10: the vector [ensure_ndarray_1D] returns has one axis, whose
    length is the number of elements of the input's array form, and holds
    as many elements as that array: nothing is dropped or added. *)
Theorem ensure_ndarray_1D_result (x : src) (t : dtype_like) (a r : Np.array) :
  to_ndarray x = ok a ->
  ensure_ndarray_1D x t = ok r ->
  shape r = [size a] /\ length (data r) = length (data a).
Proof.
  intros Hto Hr. rewrite (ensure_ndarray_1D_unfold x t a Hto) in Hr.
  pose proof (ensure_ndarray_size_data _ _ _ _ Hr) as [Hshape Hdata].
  apply ensure_ndarray_size_ok_iff in Hr as (Hdim & _).
  split; [| exact Hdata].
  pose proof (size_squeezed a 0) as Hsize. unfold size, ndim in *.
  rewrite Hshape. destruct (shape (squeezed 0 a)) as [| m [| ? ?]]; try discriminate.
  cbn in Hsize. f_equal. lia.
Qed.

(** ** [ensure_ndarray_2D] *)

Lemma ensure_ndarray_2D_ok_inv (x : src) (t : dtype_like) (cols : option Z)
    (a r : Np.array) :
  to_ndarray x = ok a ->
  ensure_ndarray_2D x t cols = ok r ->
  ensure_ndarray_size (squeezed 1 a) t 2 = ok r /\
  exists n d : nat, shape r = [n; d] /\ (forall c, cols = Some c -> c = Z.of_nat d).
Proof.
  intros Hto. rewrite (ensure_ndarray_2D_unfold x t cols a Hto).
  destruct (ensure_ndarray_size (squeezed 1 a) t 2) as [e | a'] eqn:Hsz;
    [discriminate |].
  cbn [Exn.bind].
  pose proof (ensure_ndarray_size_data _ _ _ _ Hsz) as [Hshape _].
  apply ensure_ndarray_size_ok_iff in Hsz as Hsz'. destruct Hsz' as (Hdim & _).
  unfold ndim in Hdim. rewrite <- Hshape in Hdim.
  destruct (shape a') as [| n [| d [| ? ?]]] eqn:Ha'; try discriminate.
  destruct cols as [c |]; cbn.
  - destruct (Z.eqb_spec (Z.of_nat d) c) as [Heq | Hne]; cbn; [| discriminate].
    intros Hr. inversion Hr; subst r. split; [reflexivity |].
    exists n, d. split; [exact Ha' |]. intros c' Hc'. inversion Hc'; subst. reflexivity.
  - intros Hr. inversion Hr; subst r. split; [reflexivity |].
    exists n, d. split; [exact Ha' | discriminate].
Qed.

(** X11: for an input with array form [a], [ensure_ndarray_2D] returns
    exactly when [a] has shape [(n, d, 1, ..., 1)] (two axes, then singletons
    only), [d] is the requested number of columns if one is requested,
    and the elements need no cast or their cast goes through. *)
Theorem ensure_ndarray_2D_accepts_iff (x : src) (t : dtype_like) (cols : option Z)
    (a : Np.array) :
  to_ndarray x = ok a ->
  ((exists r, ensure_ndarray_2D x t cols = ok r) <->
   (exists n d k : nat,
      shape a = n :: d :: replicate k 1%nat /\
      (cols = None \/ cols = Some (Z.of_nat d))) /\
   (np_issubdtype t (dtype_of a) = true \/ is_Some (astype a t))).
Proof.
  intros Hto. split.
  - intros [r Hr].
    destruct (ensure_ndarray_2D_ok_inv x t cols a r Hto Hr)
      as (Hsz & n & d & Hshape & Hcols).
    pose proof (ensure_ndarray_size_data _ _ _ _ Hsz) as [Hsq _].
    apply ensure_ndarray_size_ok_iff in Hsz as (Hdim & Hcast). split.
    + apply squeezed_ndim_iff in Hdim as (pre & k & Ha & Hpre).
      rewrite (squeezed_shape_ones a 1 pre k Ha Hpre) in Hsq.
      assert (pre = [n; d]) as -> by congruence.
      exists n, d, k. split; [exact Ha |].
      destruct cols as [c |]; [right; f_equal; apply Hcols; reflexivity | left; reflexivity].
    + apply (castable_squeezed a 1 t). exists r. exact Hcast.
  - intros [(n & d & k & Hshape & Hcols) Hcast].
    apply (castable_squeezed a 1 t) in Hcast as [r Hr]. exists r.
    assert (Hsz : ensure_ndarray_size (squeezed 1 a) t 2 = ok r).
    { apply ensure_ndarray_size_ok_iff. split; [| exact Hr].
      apply squeezed_ndim_iff. exists [n; d], k. split; [exact Hshape | reflexivity]. }
    rewrite (ensure_ndarray_2D_unfold x t cols a Hto), Hsz. cbn [Exn.bind ok].
    pose proof (ensure_ndarray_size_data _ _ _ _ Hsz) as [Hsq _].
    rewrite (squeezed_shape_ones a 1 [n; d] k Hshape eq_refl) in Hsq.
    destruct Hcols as [-> | ->]; [reflexivity |].
    rewrite Hsq. cbn. rewrite Z.eqb_refl. reflexivity.
Qed.

(** X12: the array [ensure_ndarray_2D] returns has shape [(n, d)], where
    [n] and [d] are the first two axes of the input's array form, left as
    they are; [d] equals the requested number of columns if one is
    requested; and it holds as many elements as the input ([n * d] is the
    input's element count). *)
Theorem ensure_ndarray_2D_result (x : src) (t : dtype_like) (cols : option Z)
    (a r : Np.array) :
  to_ndarray x = ok a ->
  ensure_ndarray_2D x t cols = ok r ->
  exists n d : nat,
    shape r = [n; d] /\ take 2 (shape a) = [n; d] /\
    (n * d)%nat = size a /\
    length (data r) = length (data a) /\
    (forall c, cols = Some c -> c = Z.of_nat d).
Proof.
  intros Hto Hr.
  destruct (ensure_ndarray_2D_ok_inv x t cols a r Hto Hr)
    as (Hsz & n & d & Hshape & Hcols).
  pose proof (ensure_ndarray_size_data _ _ _ _ Hsz) as [Hsq Hdata].
  apply ensure_ndarray_size_ok_iff in Hsz as (Hdim & _).
  apply squeezed_ndim_iff in Hdim as (pre & k & Ha & Hpre).
  pose proof (size_squeezed a 1) as Hsize.
  rewrite (squeezed_shape_ones a 1 pre k Ha Hpre) in Hsq.
  assert (pre = [n; d]) as -> by congruence.
  exists n, d. split; [exact Hshape |]. split.
  - rewrite Ha. apply take_app_length'. reflexivity.
  - split; [| split; [exact Hdata | exact Hcols]].
    unfold size in Hsize at 1. rewrite (squeezed_shape_ones a 1 [n; d] k Ha eq_refl) in Hsize.
    cbn in Hsize. lia.
Qed.

(** X13: once the input has an array form, the two validators raise
    nothing but [ValueError]: the squeeze cannot fail and the column test
    always finds its second axis. *)
Theorem validators_raise_ValueError (x : src) (t : dtype_like) (cols : option Z)
    (a : Np.array) :
  to_ndarray x = ok a ->
  (forall e, ensure_ndarray_2D x t cols = inl e -> cls e = ValueError) /\
  (forall e, ensure_ndarray_1D x t = inl e -> cls e = ValueError).
Proof.
  intros Hto. split; intros e.
  - rewrite (ensure_ndarray_2D_unfold x t cols a Hto).
    pose proof (ensure_ndarray_size_result (squeezed 1 a) t 2) as Hres.
    destruct (ensure_ndarray_size (squeezed 1 a) t 2) as [e' | a']; cbn [Exn.bind].
    + intros Heq. inversion Heq; subst. exact Hres.
    + destruct Hres as [Hshape Hdim]. unfold ndim in Hdim. rewrite <- Hshape in Hdim.
      destruct (shape a') as [| n [| d [| ? ?]]]; try discriminate.
      destruct cols as [c |]; cbn; [| discriminate].
      destruct (Z.of_nat d =? c); cbn; [discriminate |].
      intros Heq. inversion Heq. reflexivity.
  - rewrite (ensure_ndarray_1D_unfold x t a Hto).
    pose proof (ensure_ndarray_size_result (squeezed 0 a) t 1) as Hres.
    intros Heq. rewrite Heq in Hres. exact Hres.
Qed.

(** ** [check_input_arrays] *)

Lemma check_input_arrays_ok_inv (x y : src) (t : dtype_like) (x' y' : Np.array) :
  check_input_arrays x y t = ok (x', y') ->
  ensure_ndarray_1D x t = ok x' /\ ensure_ndarray_1D y t = ok y' /\ size x' = size y'.
Proof.
  unfold check_input_arrays.
  destruct (ensure_ndarray_1D x t) as [e | x0]; [discriminate |]. cbn [Exn.bind].
  destruct (ensure_ndarray_1D y t) as [e | y0]; [discriminate |]. cbn [Exn.bind].
  destruct (Nat.eqb_spec (size x0) (size y0)) as [Heq | Hne]; cbn; [| discriminate].
  intros Hr. inversion Hr; subst. auto.
Qed.

(** X14: when [check_input_arrays] returns a pair, its two arrays are the
    1-D coercions of the two inputs and have one and the same shape
    [(n,)]. *)
Theorem check_input_arrays_result (x y : src) (t : dtype_like) (x' y' : Np.array) :
  check_input_arrays x y t = ok (x', y') ->
  ensure_ndarray_1D x t = ok x' /\ ensure_ndarray_1D y t = ok y' /\
  exists n : nat, shape x' = [n] /\ shape y' = [n].
Proof.
  intros Hok. apply check_input_arrays_ok_inv in Hok as (Hx & Hy & Hsize).
  split; [exact Hx |]. split; [exact Hy |].
  pose proof (ensure_ndarray_1D_ndim x t x' Hx) as Hdx.
  pose proof (ensure_ndarray_1D_ndim y t y' Hy) as Hdy.
  unfold ndim, size in *.
  destruct (shape x') as [| n [| ? ?]]; try discriminate.
  destruct (shape y') as [| m [| ? ?]]; try discriminate.
  cbn in Hsize. exists n. split; [reflexivity |]. f_equal. lia.
Qed.

(** X15: [check_input_arrays] does not depend on the order of its inputs:
    if [(x, y)] passes with [(x', y')], then [(y, x)] passes with
    [(y', x')]. *)
Theorem check_input_arrays_swap (x y : src) (t : dtype_like) (x' y' : Np.array) :
  check_input_arrays x y t = ok (x', y') ->
  check_input_arrays y x t = ok (y', x').
Proof.
  intros Hok. apply check_input_arrays_ok_inv in Hok as (Hx & Hy & Hsize).
  unfold check_input_arrays. rewrite Hy, Hx. cbn [Exn.bind ok].
  rewrite Hsize, Nat.eqb_refl. reflexivity.
Qed.

(** X16: once both inputs have an array form, [check_input_arrays] raises
    nothing but [ValueError], whether the failure is in the coercion of
    either input or in the comparison of the sizes. *)
Theorem check_input_arrays_raises_ValueError (x y : src) (t : dtype_like)
    (a b : Np.array) (e : Exn.t) :
  to_ndarray x = ok a ->
  to_ndarray y = ok b ->
  check_input_arrays x y t = inl e ->
  cls e = ValueError.
Proof.
  intros Hx Hy. unfold check_input_arrays.
  rewrite (ensure_ndarray_1D_unfold x t a Hx), (ensure_ndarray_1D_unfold y t b Hy).
  pose proof (ensure_ndarray_size_result (squeezed 0 a) t 1) as Hra.
  pose proof (ensure_ndarray_size_result (squeezed 0 b) t 1) as Hrb.
  destruct (ensure_ndarray_size (squeezed 0 a) t 1) as [ea | x']; cbn [Exn.bind].
  - intros Heq. inversion Heq; subst. exact Hra.
  - destruct (ensure_ndarray_size (squeezed 0 b) t 1) as [eb | y']; cbn [Exn.bind].
    + intros Heq. inversion Heq; subst. exact Hrb.
    + destruct (size x' =? size y')%nat; cbn; [discriminate |].
      intros Heq. inversion Heq. reflexivity.
Qed.

End WithNumPy.
End ArrayMore.

(* ===================================================================== *)
(** * More of KernelSet, as tests/test_kernel_set.py exercises it *)
(* ===================================================================== *)

Module BaseMore.
Section WithRuntime.

Context {obj : Type} {rt : PyRuntime obj} {src : Type} {np : NumPy src}.
Context {scalar : Type}.

Import Base BaseSpec.

Abbreviation store := (Base.store (obj := obj) (src := src) (scalar := scalar)).
Abbreviation KernelMatrix := (Base.KernelMatrix (obj := obj) (src := src) (scalar := scalar)).

(** ** [take] with a bad index *)

Lemma check_indices_bad (sz : nat) (pre post : list obj) (ixs : list nat)
    (bad : obj) :
  Forall2 (fun index i => as_Integral index = Some (Z.of_nat i) /\ (i < sz)%nat)
          pre ixs ->
  check_indices sz (pre ++ bad :: post) =
  match check_index sz bad with
  | inl e => inl e
  | inr i =>
      match check_indices sz post with
      | inl e => inl e
      | inr rest => ok (ixs ++ i :: rest)
      end
  end.
Proof.
  induction 1 as [| index i pre ixs [Hint Hlt] _ IH].
  - cbn [app check_indices]. destruct (check_index sz bad); [reflexivity |].
    cbn [Exn.bind]. destruct (check_indices sz post); reflexivity.
  - cbn [app check_indices]. rewrite IH.
    assert (Hi : check_index sz index = ok i).
    { unfold check_index. rewrite Hint.
      replace ((Z.of_nat i <? 0) || (Z.of_nat sz <=? Z.of_nat i)) with false
        by (symmetry; apply orb_false_iff; split; lia).
      rewrite Nat2Z.id. reflexivity. }
    rewrite Hi. cbn [Exn.bind ok].
    destruct (check_index sz bad); [reflexivity |].
    destruct (check_indices sz post); reflexivity.
Qed.

(** X17: [take] with a list whose first invalid index is an integer out
    of range raises [IndexError] (the loop of test_take), and with one
    whose first invalid index is no integer raises [ValueError]; in both
    cases the store is left as it was: no set is created. *)
Theorem ks_take_invalid_index (s : store) (self : loc) (ks : KernelSet)
    (pre post : list obj) (ixs : list nat) (bad : obj) :
  ksets s !! self = Some ks ->
  Forall2 (fun index i => as_Integral index = Some (Z.of_nat i) /\
                          (i < length (members ks))%nat) pre ixs ->
  (forall z : Z,
     as_Integral bad = Some z ->
     z < 0 \/ Z.of_nat (length (members ks)) <= z ->
     exists e, ks_take self (pre ++ bad :: post) s = (inl e, s) /\ cls e = IndexError) /\
  (as_Integral bad = None ->
     exists e, ks_take self (pre ++ bad :: post) s = (inl e, s) /\ cls e = ValueError).
Proof.
  intros Hks Hpre. unfold ks_take, bindM, lift.
  rewrite (read_ks_Some s self ks Hks). cbn iota beta.
  rewrite (check_indices_bad _ pre post ixs bad Hpre). unfold check_index. split.
  - intros z -> Hz.
    replace ((z <? 0) || (Z.of_nat (length (members ks)) <=? z)) with true
      by (symmetry; apply orb_true_iff; destruct Hz; [left | right]; lia).
    eexists. split; reflexivity.
  - intros ->. eexists. split; reflexivity.
Qed.

(** ** Construction from a list of members *)

Lemma ks_append_accepts (s : store) (self km : loc) (acc : list loc)
    (ns v : option nat) (m : KernelMatrix) :
  ksets s !! self = Some {| members := acc; num_samples := ns |} ->
  kmats s !! km = Some m ->
  km_num_samples m = v ->
  ns = v \/ (ns = None /\ acc = []) ->
  ks_append self km s =
  (ok tt, {| kmats := kmats s;
             ksets := <[self := {| members := acc ++ [km]; num_samples := v |}]>
                        (ksets s) |}).
Proof.
  intros Hks Hkm Hv Hns. unfold ks_append, bindM.
  rewrite (read_ks_Some s self _ Hks), (read_km_Some s km m Hkm). cbn iota beta.
  cbn [members num_samples]. rewrite Hv.
  destruct Hns as [-> | [-> ->]].
  - destruct v as [n |].
    + rewrite bool_decide_eq_true_2 by reflexivity. reflexivity.
    + destruct acc; [reflexivity |].
      rewrite bool_decide_eq_true_2 by reflexivity. reflexivity.
  - reflexivity.
Qed.

Lemma ks_extend_accepts (kms : list loc) (s : store) (self : loc) (acc : list loc)
    (ns v : option nat) :
  ksets s !! self = Some {| members := acc; num_samples := ns |} ->
  Forall (fun l => exists m, kmats s !! l = Some m /\ km_num_samples m = v) kms ->
  ns = v \/ (ns = None /\ acc = []) ->
  ks_extend self kms s =
  (ok tt, {| kmats := kmats s;
             ksets := <[self := {| members := acc ++ kms;
                                   num_samples := match kms with [] => ns | _ => v end |}]>
                        (ksets s) |}).
Proof.
  revert s acc ns. induction kms as [| km kms IH]; intros s acc ns Hks Hall Hns.
  - cbn. rewrite app_nil_r, insert_id by exact Hks. destruct s; reflexivity.
  - inversion Hall as [| ? ? (m & Hkm & Hv) Hrest]; subst.
    cbn [ks_extend]. unfold bindM.
    rewrite (ks_append_accepts s self km acc ns _ m Hks Hkm eq_refl Hns).
    rewrite (IH _ (acc ++ [km]) (km_num_samples m)); cbn [kmats ksets].
    + rewrite insert_insert_eq, <- app_assoc. cbn [app].
      destruct kms; reflexivity.
    + apply lookup_insert_eq.
    + exact Hrest.
    + left. reflexivity.
Qed.

(** X18: [KernelSet(km_list)] over matrices that agree on [num_samples]
    (all attached to datasets of one size, or all unattached as in the
    test-suite's fixture), with no declared size or with that same size
    declared, yields a new set holding exactly those members in their
    order, so that [size] is the length of the list (test_size); no
    KernelMatrix and no other set is written. *)
Theorem new_KernelSet_size (s : store) (km_list : list loc)
    (declared v : option nat) :
  Forall (fun l => exists m, kmats s !! l = Some m /\ km_num_samples m = v) km_list ->
  declared = None \/ declared = v ->
  exists (self : loc) (s' : store),
    new_KernelSet km_list declared s = (ok self, s') /\
    ksets s !! self = None /\
    ksets s' !! self =
      Some {| members := km_list;
              num_samples := match km_list with [] => declared | _ => v end |} /\
    ks_size self s' = (ok (length km_list), s') /\
    kmats s' = kmats s /\
    (forall l, l <> self -> ksets s' !! l = ksets s !! l).
Proof.
  intros Hall Hdecl.
  set (self := fresh (dom (ksets s))).
  set (ks := {| members := km_list;
                num_samples := match km_list with [] => declared | _ => v end |}).
  exists self, {| kmats := kmats s; ksets := <[self := ks]> (ksets s) |}.
  assert (Hfresh : ksets s !! self = None).
  { apply not_elem_of_dom. apply is_fresh. }
  assert (Hself : (<[self := ks]> (ksets s)) !! self = Some ks) by apply lookup_insert_eq.
  split; [| split; [exact Hfresh | split; [exact Hself | split; [| split]]]].
  - unfold new_KernelSet, bindM, alloc_ks, ok. cbn zeta iota beta. fold self.
    rewrite (ks_extend_accepts km_list _ self [] declared v); cbn [kmats ksets].
    + rewrite insert_insert_eq. reflexivity.
    + apply lookup_insert_eq.
    + exact Hall.
    + destruct Hdecl as [-> | ->]; [right; split; reflexivity | left; reflexivity].
  - apply (ks_size_Some _ self ks). exact Hself.
  - reflexivity.
  - intros l Hl. cbn. apply lookup_insert_ne. congruence.
Qed.

End WithRuntime.
End BaseMore.

(** ** The further properties on sample inputs *)

Module MoreExamples.

Import Np Utils Ops Base Tiny.
Import UtilsMore ArrayMore BaseMore.


(** The sample configuration is in lower case: its names pass, and
    ["adition"] does not. *)
Lemma check_operation_accepts_valid_witness :
  check_operation_kernel_matrix ascii_lower sample_ops "product" = ok "product" /\
  raises ValueError (check_operation_kernel_matrix ascii_lower sample_ops "adition").
Proof.
  assert (Hlower : Forall (fun v => ascii_lower v = v) sample_ops)
    by (repeat constructor).
  destruct (check_operation_accepts_valid ascii_lower sample_ops Hlower)
    as [Hvalid Hbad].
  split.
  - apply Hvalid. unfold sample_ops. repeat constructor.
  - apply (proj2 (Hbad "adition")).
    apply (proj1 (bool_decide_eq_false _)). vm_compute. reflexivity.
Defined.

(** A function of two arguments passes with minimum 2, hence with 1. *)
Lemma check_callable_antitone_witness : check_callable linear 1 = ok linear.
Proof. apply (check_callable_antitone linear 2 1); [lia | reflexivity]. Defined.

(** A built-in function is refused with the error of [inspect.signature],
    a [ValueError]. *)
Lemma check_callable_raises_iff_witness :
  check_callable (PBuiltin "dot") default_min_num_args =
  inl (Raise ValueError "no signature found for builtin").
Proof.
  apply (proj2 (check_callable_raises_iff (PBuiltin "dot") default_min_num_args _)).
  right. left. split; reflexivity.
Defined.

(** A column of three is accepted as a vector; a [(2, 3)] dataset is not. *)
Lemma ensure_ndarray_1D_accepts_iff_witness :
  (exists r, ensure_ndarray_1D column np_number = ok r) /\
  ~ (exists r, ensure_ndarray_1D sample_data np_number = ok r).
Proof.
  split.
  - apply (proj2 (ensure_ndarray_1D_accepts_iff (np := numpy) column np_number
                    column_array eq_refl)).
    split; [exists 3%nat, 1%nat; reflexivity | right; eexists; reflexivity].
  - intros Hr.
    apply (proj1 (ensure_ndarray_1D_accepts_iff (np := numpy) sample_data np_number
                    sample_array eq_refl)) in Hr as [(n & k & Hshape) _].
    cbn in Hshape. inversion Hshape as [[Hn Hk]]. destruct k; discriminate.
Defined.

(** The column of three becomes a vector of length three. *)
Lemma ensure_ndarray_1D_result_witness :
  shape flat_array = [size column_array] /\
  length (data flat_array) = length (data column_array).
Proof.
  exact (ensure_ndarray_1D_result (np := numpy) column np_number column_array
           flat_array eq_refl eq_refl).
Defined.

(** The [(2, 3)] dataset is accepted when three columns are requested. *)
Lemma ensure_ndarray_2D_accepts_iff_witness :
  exists r, ensure_ndarray_2D sample_data np_number (Some 3) = ok r.
Proof.
  apply (proj2 (ensure_ndarray_2D_accepts_iff (np := numpy) sample_data np_number
                  (Some 3) sample_array eq_refl)).
  split.
  - exists 2%nat, 3%nat, 0%nat. split; [reflexivity | right; reflexivity].
  - right. eexists. reflexivity.
Defined.

(** What comes back for the [(2, 3)] dataset has shape [(2, 3)] and six
    elements. *)
Lemma ensure_ndarray_2D_result_witness :
  exists n d : nat,
    shape sample_array = [n; d] /\ take 2 (shape sample_array) = [n; d] /\
    (n * d)%nat = size sample_array /\
    length (data sample_array) = length (data sample_array) /\
    (forall c, Some 3 = Some c -> c = Z.of_nat d).
Proof.
  exact (ensure_ndarray_2D_result (np := numpy) sample_data np_number (Some 3)
           sample_array sample_array eq_refl eq_refl).
Defined.

(** A flat vector where a dataset is expected, a dataset where a vector
    is expected: both failures are [ValueError]s. *)
Lemma validators_raise_ValueError_witness :
  (exists e, ensure_ndarray_2D flat np_number (Some 3) = inl e /\ cls e = ValueError) /\
  (exists e, ensure_ndarray_1D sample_data np_number = inl e /\ cls e = ValueError).
Proof.
  split.
  - eexists. split; [reflexivity |].
    apply (proj1 (validators_raise_ValueError (np := numpy) flat np_number (Some 3)
                    flat_array eq_refl)). reflexivity.
  - eexists. split; [reflexivity |].
    apply (proj2 (validators_raise_ValueError (np := numpy) sample_data np_number None
                    sample_array eq_refl)). reflexivity.
Defined.

(** A vector of three and a column of three come back as two vectors of
    one shape. *)
Lemma check_input_arrays_result_witness :
  ensure_ndarray_1D flat np_number = ok flat_array /\
  ensure_ndarray_1D column np_number = ok flat_array /\
  exists n : nat, shape flat_array = [n] /\ shape flat_array = [n].
Proof.
  exact (check_input_arrays_result (np := numpy) flat column np_number flat_array
           flat_array eq_refl).
Defined.

(** The column and the vector pass in the other order too. *)
Lemma check_input_arrays_swap_witness :
  check_input_arrays column flat np_number = ok (flat_array, flat_array).
Proof.
  exact (check_input_arrays_swap (np := numpy) flat column np_number flat_array
           flat_array eq_refl).
Defined.

(** Vectors of three and of two: the failure is a [ValueError]. *)
Lemma check_input_arrays_raises_ValueError_witness :
  exists e, check_input_arrays flat shorter np_number = inl e /\ cls e = ValueError.
Proof.
  eexists. split; [reflexivity |].
  apply (check_input_arrays_raises_ValueError (np := numpy) flat shorter np_number
           flat_array shorter_array _ eq_refl eq_refl). reflexivity.
Defined.

(** [take([0, 3])] and [take([0, '1'])] on the set of three. *)
Lemma ks_take_invalid_index_witness :
  (exists e, ks_take 0%nat [PInt 0; PInt 3] fixture_store = (inl e, fixture_store) /\
             cls e = IndexError) /\
  (exists e, ks_take 0%nat [PInt 0; PStr "1"] fixture_store = (inl e, fixture_store) /\
             cls e = ValueError).
Proof.
  assert (Hpre : Forall2 (fun index i => as_Integral index = Some (Z.of_nat i) /\
                            (i < 3)%nat) [PInt 0] [0%nat])
    by (repeat constructor).
  split.
  - apply (proj1 (ks_take_invalid_index (rt := runtime) fixture_store 0%nat _
                    [PInt 0] [] [0%nat] (PInt 3) BaseExamples.fixture_kset Hpre)
             3 eq_refl).
    right. cbn. lia.
  - apply (proj2 (ks_take_invalid_index (rt := runtime) fixture_store 0%nat _
                    [PInt 0] [] [0%nat] (PStr "1") BaseExamples.fixture_kset Hpre)
             eq_refl).
Defined.

(** A second set over the three matrices of the fixture has size three. *)
Lemma new_KernelSet_size_witness :
  exists self s',
    new_KernelSet [0; 1; 2]%nat None fixture_store = (ok self, s') /\
    ks_size self s' = (ok 3%nat, s').
Proof.
  destruct (new_KernelSet_size fixture_store [0; 1; 2]%nat None (Some 2%nat))
    as (self & s' & Hnew & _ & _ & Hsize & _).
  - repeat constructor; eexists; (split; [vm_compute; reflexivity | reflexivity]).
  - left. reflexivity.
  - exists self, s'. split; assumption.
Defined.

End MoreExamples.
